(** * BiliNote chat panel: session lifecycle and message-list reconciliation

    A shallow embedding of the chat API client
    ([BillNote_frontend/src/services/chat.ts]) and of the two versions of the
    chat panel component ([ChatContainer]) of the repository, followed by the
    properties of the specification that concern them.

    Conventions.
    - A JavaScript string is a [string]; a character stands for the code
      unit with the same number (0..255).  Text outside that range occurs
      only in the literal notices, which are kept as their UTF-8 bytes and
      which the code never inspects.
    - A promise that has settled is an [outcome]: [Resolved v] or
      [Rejected e].  A thrown exception is a [Rejected] outcome as well.
    - An [async] function is a computation in the monad [Async S]: it reads
      and updates a store of type [S] (the React state of the component),
      leaves a trace of observable effects (remote calls, console output,
      toasts) and ends in an [outcome].
    - Array positions are integers ([Z]), as the source indexes arrays with
      [number]s; fractional numbers are outside the model. *)

From Stdlib Require Import String Ascii List ZArith Lia Bool.
Import ListNotations.
Local Open Scope string_scope.
Local Open Scope list_scope.
Local Open Scope Z_scope.

(** ** Data model ([services/chat.ts], lines 3-29) *)

Record ChatSession := {
  session_id : string;
  welcome_message : string;
  status : string
}.

Inductive Role := user | assistant.

Record ChatMessage := {
  role : Role;
  content : string;
  timestamp : option string
}.

Record SendMessageRequest := {
  sm_session_id : string;
  sm_message : string;
  sm_note_content : string;
  sm_provider_id : string;
  sm_model_name : string;
  sm_task_id : option string
}.

Record CreateSessionRequest := {
  cs_task_id : string;
  cs_note_content : string;
  cs_provider_id : string;
  cs_model_name : string
}.

(** The body of a resolved [POST /chat/messages]. *)
Record SendMessageResponse := {
  response : string;
  resp_session_id : string
}.

(** The body of a resolved [GET /chat/sessions/{id}/history]; the [history]
    field may be absent, which is why the client writes
    [response.history || []]. *)
Record HistoryResponse := {
  history : option (list ChatMessage)
}.

(** An object literal [{ role, content }], without a timestamp. *)
Definition message (r : Role) (c : string) : ChatMessage :=
  {| role := r; content := c; timestamp := None |}.

(** The welcome message of a session as an assistant turn, alone in a
    message list. *)
Definition welcome (session : ChatSession) : list ChatMessage :=
  [message assistant (welcome_message session)].

Definition Role_eqb (a b : Role) : bool :=
  match a, b with
  | user, user | assistant, assistant => true
  | _, _ => false
  end.

(** ** Errors, outcomes and effects *)

Inductive Error :=
| TransportFailure (detail : string)
| TypeError (detail : string).

Inductive outcome (A : Type) :=
| Resolved (a : A)
| Rejected (e : Error).
Arguments Resolved {A} a.
Arguments Rejected {A} e.

Inductive RemoteCall :=
| PostChatSessions (data : CreateSessionRequest)
| PostChatMessages (data : SendMessageRequest)
| GetChatHistory (sessionId provider_id model_name : string)
| DeleteChatSession (sessionId provider_id model_name : string)
| GetChatTest.

(** The path each call goes to, as the client builds it. *)
Definition url (c : RemoteCall) : string :=
  match c with
  | PostChatSessions _ => "/chat/sessions"
  | PostChatMessages _ => "/chat/messages"
  | GetChatHistory sid _ _ => ("/chat/sessions/" ++ sid ++ "/history")%string
  | DeleteChatSession sid _ _ => ("/chat/sessions/" ++ sid)%string
  | GetChatTest => "/chat/test"
  end.

Inductive Effect :=
| Http (c : RemoteCall)
| ConsoleError (label : string) (e : Error)
| ToastSuccess (msg : string)
| ToastError (msg : string)
| PreventDefault.

Definition is_remote_call (e : Effect) : bool :=
  match e with Http _ => true | _ => false end.

Definition is_toast_error (e : Effect) : bool :=
  match e with ToastError _ => true | _ => false end.

(** The remote calls of a trace, in the order they were issued. *)
Definition remote_calls (t : list Effect) : list Effect :=
  filter is_remote_call t.

(** The failure notifications of a trace. *)
Definition failure_notices (t : list Effect) : list Effect :=
  filter is_toast_error t.

(** ** The transport ([@/utils/request])

    The HTTP wrapper is not part of the inspected sources; it is taken as a
    parameter: for every call of the client, how the promise settles. *)
Record Request := {
  post_chat_sessions : CreateSessionRequest -> outcome ChatSession;
  post_chat_messages : SendMessageRequest -> outcome SendMessageResponse;
  get_chat_history : string -> string -> string -> outcome HistoryResponse;
  delete_chat_session : string -> string -> string -> outcome unit;
  get_chat_test : outcome unit
}.

(** ** The monad of asynchronous computations *)

Section AsyncMonad.
Context {S : Type}.

Definition Async (A : Type) : Type := S -> outcome A * S * list Effect.

Definition ret {A} (a : A) : Async A := fun s => (Resolved a, s, []).

Definition throw {A} (e : Error) : Async A := fun s => (Rejected e, s, []).

Definition bind {A B} (m : Async A) (k : A -> Async B) : Async B :=
  fun s =>
    match m s with
    | (Resolved a, s1, t1) =>
        let '(r, s2, t2) := k a s1 in (r, s2, t1 ++ t2)
    | (Rejected e, s1, t1) => (Rejected e, s1, t1)
    end.

(** An effect visible from outside. *)
Definition emit (e : Effect) : Async unit := fun s => (Resolved tt, s, [e]).

(** [await p] for a promise that settles as [o]. *)
Definition await {A} (o : outcome A) : Async A := fun s => (o, s, []).

(** A React state setter: [setX(v)] or [setX(prev => ...)]. *)
Definition update (f : S -> S) : Async unit :=
  fun s => (Resolved tt, f s, []).

(** [try { body } catch (error) { handler error }]: the store changes made
    by [body] before it threw are kept. *)
Definition try_catch {A} (body : Async A) (handler : Error -> Async A)
  : Async A :=
  fun s =>
    match body s with
    | (Resolved a, s1, t1) => (Resolved a, s1, t1)
    | (Rejected e, s1, t1) =>
        let '(r, s2, t2) := handler e s1 in (r, s2, t1 ++ t2)
    end.

(** [try { body } finally { fin }]: [fin] runs on both exits; when it
    completes normally the outcome of [body] stands. *)
Definition try_finally {A} (body : Async A) (fin : Async unit) : Async A :=
  fun s =>
    let '(r, s1, t1) := body s in
    match fin s1 with
    | (Resolved _, s2, t2) => (r, s2, t1 ++ t2)
    | (Rejected e, s2, t2) => (Rejected e, s2, t1 ++ t2)
    end.
End AsyncMonad.

Arguments Async S A : clear implicits.

(** The three components of a run. *)
Definition outcome_of {S A} (m : Async S A) (s : S) : outcome A :=
  fst (fst (m s)).

Definition store_after {S A} (m : Async S A) (s : S) : S := snd (fst (m s)).

Definition trace_of {S A} (m : Async S A) (s : S) : list Effect := snd (m s).

Declare Scope async_scope.
Delimit Scope async_scope with async.
Notation "x <- m ;; k" := (bind m (fun x => k))
  (at level 61, m at next level, right associativity) : async_scope.
Notation "m ;; k" := (bind m (fun _ => k))
  (at level 61, right associativity) : async_scope.
Local Open Scope async_scope.

(** ** JavaScript library functions used by the panel *)

(** White space and line terminators of [String.prototype.trim] among the
    code units 0..255: TAB, LF, VT, FF, CR, SP and NBSP. *)
Definition isWhiteSpace (c : ascii) : bool :=
  match nat_of_ascii c with
  | 9%nat | 10%nat | 11%nat | 12%nat | 13%nat | 32%nat | 160%nat => true
  | _ => false
  end.

Fixpoint trimStart (s : string) : string :=
  match s with
  | EmptyString => EmptyString
  | String c rest => if isWhiteSpace c then trimStart rest else s
  end.

Definition reverse (s : string) : string :=
  string_of_list_ascii (rev (list_ascii_of_string s)).

Definition trimEnd (s : string) : string := reverse (trimStart (reverse s)).

Definition trim (s : string) : string := trimEnd (trimStart s).

(** [!s] for a string: only the empty string is falsy. *)
Definition falsy (s : string) : bool :=
  match s with EmptyString => true | String _ _ => false end.

Section Arrays.
Context {A : Type}.

Definition len (l : list A) : Z := Z.of_nat (length l).

(** [l[i]]: [None] stands for [undefined] (no own property [i]). *)
Definition at_index (l : list A) (i : Z) : option A :=
  if i <? 0 then None else nth_error l (Z.to_nat i).

(** A relative position clamped into [0, len], as [slice] and [splice]
    compute it. *)
Definition clamp (n : Z) (rel : Z) : Z :=
  if rel <? 0 then Z.max (n + rel) 0 else Z.min rel n.

(** [l.slice(start, end)]. *)
Definition slice (l : list A) (start stop : Z) : list A :=
  let k := clamp (len l) start in
  let final := clamp (len l) stop in
  firstn (Z.to_nat (final - k)) (skipn (Z.to_nat k) l).

(** The array after [l.splice(start, deleteCount)]. *)
Definition splice (l : list A) (start deleteCount : Z) : list A :=
  let k := clamp (len l) start in
  let d := Z.min (Z.max deleteCount 0) (len l - k) in
  firstn (Z.to_nat k) l ++ skipn (Z.to_nat (k + d)) l.
End Arrays.

(** ** The chat API client ([services/chat.ts], lines 31-106) *)

Module chatService.
Section Client.
Context {S : Type}.
Variable request : Request.

(** Lines 35-43. *)
Definition createSession (data : CreateSessionRequest)
  : Async S ChatSession :=
  try_catch
    (emit (Http (PostChatSessions data)) ;;
     response <- await (post_chat_sessions request data) ;;
     ret response)
    (fun error =>
       emit (ConsoleError "Failed to create chat session:" error) ;;
       throw error).

(** Lines 48-56. *)
Definition sendMessage (data : SendMessageRequest)
  : Async S SendMessageResponse :=
  try_catch
    (emit (Http (PostChatMessages data)) ;;
     response <- await (post_chat_messages request data) ;;
     ret response)
    (fun error =>
       emit (ConsoleError "Failed to send message:" error) ;;
       throw error).

(** Lines 61-74. *)
Definition getChatHistory (sessionId providerId modelName : string)
  : Async S (list ChatMessage) :=
  try_catch
    (emit (Http (GetChatHistory sessionId providerId modelName)) ;;
     response <-
       await (get_chat_history request sessionId providerId modelName) ;;
     ret (match history response with Some h => h | None => [] end))
    (fun error =>
       emit (ConsoleError "Failed to get chat history:" error) ;;
       ret []).

(** Lines 79-92. *)
Definition deleteSession (sessionId providerId modelName : string)
  : Async S bool :=
  try_catch
    (emit (Http (DeleteChatSession sessionId providerId modelName)) ;;
     await (delete_chat_session request sessionId providerId modelName) ;;
     ret true)
    (fun error =>
       emit (ConsoleError "Failed to delete chat session:" error) ;;
       ret false).

(** Lines 97-105. *)
Definition testConnection : Async S bool :=
  try_catch
    (emit (Http GetChatTest) ;;
     await (get_chat_test request) ;;
     ret true)
    (fun error =>
       emit (ConsoleError "Chat connection test failed:" error) ;;
       ret false).
End Client.
End chatService.

(** ** The state of the chat panel (both versions, lines 10-30) *)

Record Props := {
  taskId : string;
  noteContent : string;
  providerId : string;
  modelName : string
}.

Record PanelState := {
  sessionId : string;
  messages : list ChatMessage;
  inputMessage : string;
  isLoading : bool;
  isInitializing : bool
}.

(** The [useState] initial values. *)
Definition mounted : PanelState :=
  {| sessionId := ""; messages := []; inputMessage := "";
     isLoading := false; isInitializing := true |}.

Definition setSessionId (v : string) (s : PanelState) : PanelState :=
  {| sessionId := v; messages := messages s; inputMessage := inputMessage s;
     isLoading := isLoading s; isInitializing := isInitializing s |}.

(** [setMessages(prev => f prev)]; [setMessages(v)] is [setMessages (fun _ => v)]. *)
Definition setMessages (f : list ChatMessage -> list ChatMessage)
  (s : PanelState) : PanelState :=
  {| sessionId := sessionId s; messages := f (messages s);
     inputMessage := inputMessage s;
     isLoading := isLoading s; isInitializing := isInitializing s |}.

Definition setInputMessage (v : string) (s : PanelState) : PanelState :=
  {| sessionId := sessionId s; messages := messages s; inputMessage := v;
     isLoading := isLoading s; isInitializing := isInitializing s |}.

Definition setIsLoading (v : bool) (s : PanelState) : PanelState :=
  {| sessionId := sessionId s; messages := messages s;
     inputMessage := inputMessage s;
     isLoading := v; isInitializing := isInitializing s |}.

Definition setIsInitializing (v : bool) (s : PanelState) : PanelState :=
  {| sessionId := sessionId s; messages := messages s;
     inputMessage := inputMessage s;
     isLoading := isLoading s; isInitializing := v |}.

Record KeyboardEvent := {
  key : string;
  shiftKey : bool
}.

(** [{ task_id, note_content, provider_id, model_name }] built from the
    props (lines 46-51 of both versions). *)
Definition createSessionRequest (p : Props) : CreateSessionRequest :=
  {| cs_task_id := taskId p; cs_note_content := noteContent p;
     cs_provider_id := providerId p; cs_model_name := modelName p |}.

(** Reading [.role] of an array entry: a [TypeError] on [undefined]. *)
Definition role_of {S : Type} (entry : option ChatMessage) : Async S Role :=
  match entry with
  | Some m => ret (role m)
  | None =>
      throw (TypeError "Cannot read properties of undefined (reading 'role')")
  end.

(** ** The chat panel with history and deletion ([src/unnamed/part_000]) *)

Module ChatPanel.

(** Lines 43-83.  The component calls it once, when it mounts. *)
Definition initializeChat (request : Request) (p : Props)
  : Async PanelState unit :=
  try_finally
    (try_catch
       (update (setIsInitializing true) ;;
        session <-
          chatService.createSession request (createSessionRequest p) ;;
        update (setSessionId (session_id session)) ;;
        if String.eqb (status session) "existing" then
          history <-
            chatService.getChatHistory request (session_id session)
              (providerId p) (modelName p) ;;
          if len history >? 0 then
            update (setMessages (fun _ => history)) ;;
            emit (ToastSuccess "聊天记录已加载")
          else
            update (setMessages (fun _ =>
              [message assistant (welcome_message session)]))
        else
          update (setMessages (fun _ =>
            [message assistant (welcome_message session)])) ;;
          emit (ToastSuccess "聊天会话已创建"))
       (fun error =>
          emit (ConsoleError "Failed to initialize chat:" error) ;;
          emit (ToastError "聊天会话加载失败")))
    (update (setIsInitializing false)).

(** Line 89: the condition under which submit returns at once. *)
Definition sendGuard (st : PanelState) : bool :=
  falsy (trim (inputMessage st)) || falsy (sessionId st) || isLoading st.

(** Lines 101-108: the request, built from the values of this render. *)
Definition sendRequest (p : Props) (st : PanelState) : SendMessageRequest :=
  {| sm_session_id := sessionId st;
     sm_message := inputMessage st;
     sm_note_content := noteContent p;
     sm_provider_id := providerId p;
     sm_model_name := modelName p;
     sm_task_id := Some (taskId p) |}.

(** Lines 91-98: what submit does before the remote call. *)
Definition optimisticAppend (st : PanelState) : Async PanelState unit :=
  let userMessage := message user (inputMessage st) in
  update (setMessages (fun prev => prev ++ [userMessage])) ;;
  update (setInputMessage "") ;;
  update (setIsLoading true).

(** Lines 100-124: the awaited call and what follows it.  The setters
    take [prev], the message list at the moment they run. *)
Definition sendRoundTrip (call : Async PanelState SendMessageResponse)
  : Async PanelState unit :=
  try_finally
    (try_catch
       (reply <- call ;;
        let assistantMessage := message assistant (response reply) in
        update (setMessages (fun prev => prev ++ [assistantMessage])))
       (fun error =>
          emit (ConsoleError "Failed to send message:" error) ;;
          emit (ToastError "消息发送失败") ;;
          update (setMessages (fun prev => slice prev 0 (-1)))))
    (update (setIsLoading false)).

(** Lines 88-125, run from the submit to the end of the round trip. *)
Definition handleSendMessage (request : Request) (p : Props)
  : Async PanelState unit :=
  fun st =>
    (if sendGuard st then ret tt
     else
       optimisticAppend st ;;
       sendRoundTrip (chatService.sendMessage request (sendRequest p st)))
      st.

(** Lines 127-146.  [messages] is the list of the current render. *)
Definition handleDeleteMessage (index : Z) : Async PanelState unit :=
  fun st =>
    (if index =? 0 then
       emit (ToastError "不能删除欢迎消息")
     else
       let newMessages := messages st in
       r <- role_of (at_index newMessages index) ;;
       let newMessages :=
         if Role_eqb r user then splice newMessages index 2
         else splice newMessages index 1 in
       update (setMessages (fun _ => newMessages)) ;;
       emit (ToastSuccess "消息已删除"))
      st.

(** Lines 148-153. *)
Definition handleKeyPress (request : Request) (p : Props) (e : KeyboardEvent)
  : Async PanelState unit :=
  if String.eqb (key e) "Enter" && negb (shiftKey e)
  then emit PreventDefault ;; handleSendMessage request p
  else ret tt.

(** Lines 193-216: the positions for which the message list renders a
    delete button, each bound to [handleDeleteMessage(index)].  The button
    has no [disabled] attribute: unlike the input and the send button
    (lines 245 and 250) it stays active while a send is pending. *)
Definition deleteButtons (st : PanelState) : list Z :=
  filter (fun index => index >? 0)
    (map Z.of_nat (seq 0 (length (messages st)))).

End ChatPanel.

(** ** The chat panel without history
    ([BillNote_frontend/src/components/Chat/ChatContainer.tsx]) *)

Module ChatContainer.

(** Lines 43-69.  It runs again whenever a prop changes (line 72). *)
Definition initializeChat (request : Request) (p : Props)
  : Async PanelState unit :=
  try_finally
    (try_catch
       (update (setIsInitializing true) ;;
        session <-
          chatService.createSession request (createSessionRequest p) ;;
        update (setSessionId (session_id session)) ;;
        update (setMessages (fun _ =>
          [message assistant (welcome_message session)])) ;;
        emit (ToastSuccess "聊天会话已创建"))
       (fun error =>
          emit (ConsoleError "Failed to initialize chat:" error) ;;
          emit (ToastError "聊天会话创建失败")))
    (update (setIsInitializing false)).

(** Line 75. *)
Definition sendGuard (st : PanelState) : bool :=
  falsy (trim (inputMessage st)) || falsy (sessionId st) || isLoading st.

(** Lines 87-93: no [task_id]. *)
Definition sendRequest (p : Props) (st : PanelState) : SendMessageRequest :=
  {| sm_session_id := sessionId st;
     sm_message := inputMessage st;
     sm_note_content := noteContent p;
     sm_provider_id := providerId p;
     sm_model_name := modelName p;
     sm_task_id := None |}.

(** Lines 74-110. *)
Definition handleSendMessage (request : Request) (p : Props)
  : Async PanelState unit :=
  fun st =>
    (if sendGuard st then ret tt
     else
       let userMessage := message user (inputMessage st) in
       update (setMessages (fun prev => prev ++ [userMessage])) ;;
       update (setInputMessage "") ;;
       update (setIsLoading true) ;;
       try_finally
         (try_catch
            (reply <- chatService.sendMessage request (sendRequest p st) ;;
             let assistantMessage := message assistant (response reply) in
             update (setMessages (fun prev => prev ++ [assistantMessage])))
            (fun error =>
               emit (ConsoleError "Failed to send message:" error) ;;
               emit (ToastError "消息发送失败") ;;
               update (setMessages (fun prev => slice prev 0 (-1)))))
         (update (setIsLoading false)))
      st.

End ChatContainer.

(** ** The panel as a transition system

    [ChatPanel.handleSendMessage] is asynchronous: between the optimistic
    append and the continuation after [await], the user can act on the
    panel.  A [Panel] is the React state together with the send requests
    that have been issued and have not settled yet; an [Event] is one user
    action on a rendered control, or the settling of the oldest pending
    request. *)

Module Machine.
Import ChatPanel.

Record Panel := {
  view : PanelState;
  inflight : list SendMessageRequest
}.

Inductive Event :=
| Change (value : string)
| Submit
| KeyPress (e : KeyboardEvent)
| ClickDelete (index : Z)
| Settle (o : outcome SendMessageResponse).

(** [handleSendMessage] up to its [await]. *)
Definition submit (p : Props) (panel : Panel) : Panel :=
  let st := view panel in
  if sendGuard st then panel
  else {| view := store_after (optimisticAppend st) st;
          inflight := inflight panel ++ [sendRequest p st] |}.

(** [handleSendMessage] from its [await] on, the call having settled
    as [o]. *)
Definition settle (o : outcome SendMessageResponse) (st : PanelState)
  : PanelState := store_after (sendRoundTrip (await o)) st.

(** [None]: the event cannot happen in this state (the control is
    disabled or not rendered, or no request is pending). *)
Definition step (p : Props) (panel : Panel) (ev : Event) : option Panel :=
  match ev with
  | Change value =>
      if isLoading (view panel) then None
      else Some {| view := setInputMessage value (view panel);
                   inflight := inflight panel |}
  | Submit => Some (submit p panel)
  | KeyPress e =>
      if isLoading (view panel) then None
      else if String.eqb (key e) "Enter" && negb (shiftKey e)
           then Some (submit p panel)
           else Some panel
  | ClickDelete index =>
      if existsb (Z.eqb index) (deleteButtons (view panel)) then
        Some {| view := store_after (handleDeleteMessage index) (view panel);
                inflight := inflight panel |}
      else None
  | Settle o =>
      match inflight panel with
      | [] => None
      | _ :: rest => Some {| view := settle o (view panel); inflight := rest |}
      end
  end.

Fixpoint run (p : Props) (panel : Panel) (evs : list Event) : option Panel :=
  match evs with
  | [] => Some panel
  | ev :: rest =>
      match step p panel ev with
      | Some panel' => run p panel' rest
      | None => None
      end
  end.

(** The panel once the bootstrap of the mount has completed. *)
Definition booted (request : Request) (p : Props) : Panel :=
  {| view := store_after (initializeChat request p) mounted;
     inflight := [] |}.

(** The sending flag is up exactly while a request is pending, and no
    second request is pending with it. *)
Definition one_outstanding (panel : Panel) : Prop :=
  (isLoading (view panel) = false /\ inflight panel = []) \/
  (isLoading (view panel) = true /\ exists data, inflight panel = [data]).

Inductive reachable (request : Request) (p : Props) : Panel -> Prop :=
| reach_booted : reachable request p (booted request p)
| reach_step panel ev panel' :
    reachable request p panel ->
    step p panel ev = Some panel' ->
    reachable request p panel'.

End Machine.

(** ** Sample data *)

Module Sample.
Definition props : Props :=
  {| taskId := "t1"; noteContent := "# Note"; providerId := "openai";
     modelName := "gpt" |}.

Definition session (st : string) : ChatSession :=
  {| session_id := "s1"; welcome_message := "Hi"; status := st |}.

Definition down : Error := TransportFailure "Network Error".

(** A backend on which every call fails. *)
Definition offline : Request :=
  {| post_chat_sessions := fun _ => Rejected down;
     post_chat_messages := fun _ => Rejected down;
     get_chat_history := fun _ _ _ => Rejected down;
     delete_chat_session := fun _ _ _ => Rejected down;
     get_chat_test := Rejected down |}.

(** A backend that answers; [st] is the status of the session it
    creates, [h] the history it holds, [r] its reply to a message. *)
Definition online (st : string) (h : option (list ChatMessage)) (r : string)
  : Request :=
  {| post_chat_sessions := fun _ => Resolved (session st);
     post_chat_messages := fun d =>
       Resolved {| response := r; resp_session_id := sm_session_id d |};
     get_chat_history := fun _ _ _ => Resolved {| history := h |};
     delete_chat_session := fun _ _ _ => Resolved tt;
     get_chat_test := Resolved tt |}.

(** A backend that resumes a session but fails to deliver its history
    and to answer messages. *)
Definition flaky : Request :=
  {| post_chat_sessions := fun _ => Resolved (session "existing");
     post_chat_messages := fun _ => Rejected down;
     get_chat_history := fun _ _ _ => Rejected down;
     delete_chat_session := fun _ _ _ => Rejected down;
     get_chat_test := Rejected down |}.

Definition W := message assistant "Hi".
Definition U1 := message user "q1".
Definition A1 := message assistant "a1".
Definition U2 := message user "q2".
Definition A2 := message assistant "a2".

(** A panel whose first question is on its way. *)
Definition busy : PanelState :=
  {| sessionId := "s1"; messages := [W; U1]; inputMessage := "again";
     isLoading := true; isInitializing := false |}.

Definition ready (l : list ChatMessage) (input : string) : PanelState :=
  {| sessionId := "s1"; messages := l; inputMessage := input;
     isLoading := false; isInitializing := false |}.
End Sample.

(** ** Further observations on traces and strings *)

Definition is_console_error (e : Effect) : bool :=
  match e with ConsoleError _ _ => true | _ => false end.

(** What a trace writes with [console.error]. *)
Definition console_errors (t : list Effect) : list Effect :=
  filter is_console_error t.

(** A string made of white space only (the empty string included). *)
Definition blank (s : string) : bool :=
  forallb isWhiteSpace (list_ascii_of_string s).

(** ** Controls of the chat panel ([src/unnamed/part_000], lines 240-254) *)

Module ChatPanelView.

(** Line 245: [disabled] of the input field. *)
Definition inputDisabled (st : PanelState) : bool := isLoading st.

(** Line 250: [disabled] of the send button. *)
Definition sendDisabled (st : PanelState) : bool :=
  isLoading st || falsy (trim (inputMessage st)).

End ChatPanelView.

(** ** Formatting utilities ([BillNote_frontend/src/lib/utils.ts]) *)

Module utils.

(** [.replace(/\//g, '-')]: every slash becomes a dash. *)
Fixpoint replaceSlashes (s : string) : string :=
  match s with
  | EmptyString => EmptyString
  | String c rest =>
      String (if Ascii.eqb c "/"%char then "-"%char else c)
        (replaceSlashes rest)
  end.

Section FormatDate.
(** The built-in [Date] is a parameter: [newDate s] is [new Date(s)],
    [getTime d] is [None] when [d.getTime()] is [NaN], and
    [toLocaleString d] is [d.toLocaleString('zh-CN', ...)] with the options
    of lines 13-19. *)
Variable Date : Type.
Variable newDate : string -> Date.
Variable getTime : Date -> option Z.
Variable toLocaleString : Date -> string.

(** The argument, of type [string | Date | undefined]. *)
Inductive DateInput :=
| Undefined
| Text (s : string)
| Object (d : Date).

(** Lines 11-20, for the date [d] of line 10. *)
Definition render (d : Date) : string :=
  match getTime d with
  | None => ""
  | Some _ => replaceSlashes (toLocaleString d)
  end.

(** Lines 8-21.  An object is truthy, an empty string is not. *)
Definition formatDate (date : DateInput) : string :=
  match date with
  | Undefined => ""
  | Text s => if falsy s then "" else render (newDate s)
  | Object d => render d
  end.
End FormatDate.

Arguments Undefined {Date}.
Arguments Text {Date} s.
Arguments Object {Date} d.

End utils.

(** ** The note header
    ([BillNote_frontend/src/pages/HomePage/components/MarkdownHeader.tsx]) *)

Module MarkdownHeader.

(** An entry of [noteStyles]. *)
Record NoteStyle := {
  value : string;
  label : string
}.

(** A version of the note, an entry of [currentTask.markdown]. *)
Record Version := {
  ver_id : string
}.

Record Task := {
  markdown : list Version
}.

(** Line 49: [noteStyles.find(s => s.value === style)?.label || style]. *)
Definition styleName (noteStyles : list NoteStyle) (style : string) : string :=
  match find (fun s => String.eqb (value s) style) noteStyles with
  | Some s => if falsy (label s) then style else label s
  | None => style
  end.

(** [Array.prototype.findIndex], counting from [from]: -1 when nothing
    satisfies the test. *)
Fixpoint findIndexFrom {A} (test : A -> bool) (l : list A) (from : Z) : Z :=
  match l with
  | [] => -1
  | a :: rest => if test a then from else findIndexFrom test rest (from + 1)
  end.

Definition findIndex {A} (test : A -> bool) (l : list A) : Z :=
  findIndexFrom test l 0.

(** [id.slice(-6)]. *)
Definition shortId (id : string) : string :=
  let units := list_ascii_of_string id in
  string_of_list_ascii (slice units (-6) (len units)).

(** The template of lines 61 and 71. *)
Definition versionText (short : string) : string :=
  ("版本（" ++ short ++ "）")%string.

(** Lines 59-62: the text of the select trigger.  Without a task the
    optional chain gives [undefined], which is not [-1]. *)
Definition triggerText (currentTask : option Task) (currentVerId : string)
  : string :=
  match currentTask with
  | Some task =>
      let idx :=
        findIndex (fun v => String.eqb (ver_id v) currentVerId)
          (markdown task) in
      if negb (idx =? -1) then versionText (shortId currentVerId) else ""
  | None => versionText (shortId currentVerId)
  end.

(** Lines 67-74: the select items, as pairs of value and text. *)
Definition selectItems (currentTask : option Task) : list (string * string) :=
  List.map (fun v => (ver_id v, versionText (shortId (ver_id v))))
    (match currentTask with Some task => markdown task | None => [] end).

End MarkdownHeader.

(** ** More sample data *)

Module Fixture.

(** A date is its time value; the text [ok] alone parses. *)
Definition newDate (s : string) : option Z :=
  if String.eqb s "ok" then Some 0 else None.

Definition getTime (d : option Z) : option Z := d.

Definition toLocaleString (d : option Z) : string := "2024/01/02 03:04".

Definition styles : list MarkdownHeader.NoteStyle :=
  [ {| MarkdownHeader.value := "minimal"; MarkdownHeader.label := "Minimal" |};
    {| MarkdownHeader.value := "raw"; MarkdownHeader.label := "" |} ].

Definition task : MarkdownHeader.Task :=
  {| MarkdownHeader.markdown :=
       [ {| MarkdownHeader.ver_id := "ver-0001-aaaaaa" |};
         {| MarkdownHeader.ver_id := "v2" |} ] |}.

Definition enter : KeyboardEvent := {| key := "Enter"; shiftKey := false |}.

Definition shiftEnter : KeyboardEvent := {| key := "Enter"; shiftKey := true |}.
End Fixture.


(** * Properties *)

(** ** Arrays *)

Section ArrayFacts.
Context {A : Type}.
Implicit Types (l : list A) (i : Z).

Lemma len_nonneg l : 0 <= len l.
Proof. unfold len. lia. Qed.

Lemma len_app l1 l2 : len (l1 ++ l2) = len l1 + len l2.
Proof. unfold len. rewrite length_app. lia. Qed.

Lemma at_index_in_range l i :
  0 <= i < len l -> exists a, at_index l i = Some a.
Proof.
  intros [Hlo Hhi]. unfold at_index, len in *.
  destruct (Z.ltb_spec i 0) as [Hneg|_]; [lia|].
  destruct (nth_error l (Z.to_nat i)) as [a|] eqn:E; [now exists a|].
  apply nth_error_None in E. lia.
Qed.

Lemma at_index_out_of_range l i : len l <= i -> at_index l i = None.
Proof.
  intros H. pose proof (len_nonneg l) as H0. unfold at_index, len in *.
  destruct (Z.ltb_spec i 0) as [_|_]; [reflexivity|].
  apply nth_error_None. lia.
Qed.

Lemma at_index_negative l i : i < 0 -> at_index l i = None.
Proof.
  intros H. unfold at_index.
  destruct (Z.ltb_spec i 0) as [_|Hge]; [reflexivity|lia].
Qed.

(** Inside the array, [splice] removes [d] entries or as many as are
    left, whichever is less. *)
Lemma splice_in_range l i d :
  0 <= i < len l -> 0 <= d ->
  splice l i d =
  firstn (Z.to_nat i) l ++ skipn (Z.to_nat (i + Z.min d (len l - i))) l.
Proof.
  intros Hi Hd. unfold splice, clamp.
  destruct (Z.ltb_spec i 0) as [Hneg|_]; [lia|].
  rewrite (Z.min_l i (len l)) by lia.
  rewrite (Z.max_l d 0) by lia. reflexivity.
Qed.

(** At the last position the removal is clipped to one entry. *)
Lemma splice_last l d :
  0 < len l -> 1 <= d -> splice l (len l - 1) d = removelast l.
Proof.
  intros Hl Hd. rewrite splice_in_range by lia.
  rewrite Z.min_r by lia.
  replace (len l - 1 + (len l - (len l - 1))) with (len l) by lia.
  unfold len in *. rewrite Nat2Z.id, skipn_all, app_nil_r.
  rewrite removelast_firstn_len. f_equal. lia.
Qed.

Lemma length_splice_lower l i d :
  0 <= i < len l -> 0 <= d -> (Z.to_nat i <= length (splice l i d))%nat.
Proof.
  intros Hi Hd. rewrite splice_in_range by assumption.
  rewrite length_app, length_firstn. unfold len in *. lia.
Qed.

(** [slice(0, -1)] undoes an append of one entry. *)
Lemma slice_drops_appended l a : slice (l ++ [a]) 0 (-1) = l.
Proof.
  unfold slice, clamp. rewrite len_app.
  pose proof (len_nonneg l) as H0. change (len [a]) with 1.
  destruct (Z.ltb_spec 0 0) as [Hneg|_]; [lia|].
  destruct (Z.ltb_spec (-1) 0) as [_|Hge]; [|lia].
  rewrite Z.min_l by lia. rewrite Z.max_l by lia.
  replace (len l + 1 + -1 - 0) with (len l) by lia.
  unfold len. rewrite Nat2Z.id. simpl skipn.
  rewrite firstn_app, firstn_all, Nat.sub_diag. simpl. apply app_nil_r.
Qed.

(** On any array, [slice(0, -1)] drops the last entry, if there is one. *)
Lemma slice_removelast l : slice l 0 (-1) = removelast l.
Proof.
  induction l as [|a l' _] using rev_ind.
  - reflexivity.
  - rewrite slice_drops_appended, removelast_last. reflexivity.
Qed.
End ArrayFacts.

(** ** Strings *)

Example trim_both_ends : trim "  What is X? " = "What is X?".
Proof. reflexivity. Qed.

Example trim_blank : trim (String (ascii_of_nat 9) " ") = "".
Proof. reflexivity. Qed.

Lemma falsy_empty s : falsy s = true <-> s = "".
Proof. destruct s; simpl; split; congruence. Qed.

(** ** The API client *)

Section ClientRuns.
Context {S : Type}.
Variable request : Request.
Implicit Types (s : S).

(** What each operation of the client does, by the way its call settles. *)

Lemma createSession_run data s :
  chatService.createSession request data s =
  match post_chat_sessions request data with
  | Resolved v => (Resolved v, s, [Http (PostChatSessions data)])
  | Rejected e =>
      (Rejected e, s,
       [Http (PostChatSessions data);
        ConsoleError "Failed to create chat session:" e])
  end.
Proof.
  unfold chatService.createSession, try_catch, bind, emit, await, ret, throw.
  destruct (post_chat_sessions request data); reflexivity.
Qed.

Lemma sendMessage_run data s :
  chatService.sendMessage request data s =
  match post_chat_messages request data with
  | Resolved v => (Resolved v, s, [Http (PostChatMessages data)])
  | Rejected e =>
      (Rejected e, s,
       [Http (PostChatMessages data);
        ConsoleError "Failed to send message:" e])
  end.
Proof.
  unfold chatService.sendMessage, try_catch, bind, emit, await, ret, throw.
  destruct (post_chat_messages request data); reflexivity.
Qed.

Lemma getChatHistory_run sid prov model s :
  chatService.getChatHistory request sid prov model s =
  match get_chat_history request sid prov model with
  | Resolved r =>
      (Resolved (match history r with Some h => h | None => [] end), s,
       [Http (GetChatHistory sid prov model)])
  | Rejected e =>
      (Resolved [], s,
       [Http (GetChatHistory sid prov model);
        ConsoleError "Failed to get chat history:" e])
  end.
Proof.
  unfold chatService.getChatHistory, try_catch, bind, emit, await, ret.
  destruct (get_chat_history request sid prov model); reflexivity.
Qed.

Lemma deleteSession_run sid prov model s :
  chatService.deleteSession request sid prov model s =
  match delete_chat_session request sid prov model with
  | Resolved _ => (Resolved true, s, [Http (DeleteChatSession sid prov model)])
  | Rejected e =>
      (Resolved false, s,
       [Http (DeleteChatSession sid prov model);
        ConsoleError "Failed to delete chat session:" e])
  end.
Proof.
  unfold chatService.deleteSession, try_catch, bind, emit, await, ret.
  destruct (delete_chat_session request sid prov model); reflexivity.
Qed.

Lemma testConnection_run s :
  chatService.testConnection request s =
  match get_chat_test request with
  | Resolved _ => (Resolved true, s, [Http GetChatTest])
  | Rejected e =>
      (Resolved false, s,
       [Http GetChatTest; ConsoleError "Chat connection test failed:" e])
  end.
Proof.
  unfold chatService.testConnection, try_catch, bind, emit, await, ret.
  destruct (get_chat_test request); reflexivity.
Qed.
End ClientRuns.

(** C8.  The error contract of the API client is asymmetric: [createSession]
    and [sendMessage] hand the transport error of a failed call on to the
    caller (and the response of a successful one); [getChatHistory] answers a
    failed call with the empty sequence; [deleteSession] and [testConnection]
    answer [false] to a failed call and [true] to a successful one, and never
    end in an error. *)
Theorem C8_client_error_contract (S : Type) (request : Request) (s : S) :
  (forall data e,
     post_chat_sessions request data = Rejected e ->
     outcome_of (chatService.createSession request data) s = Rejected e) /\
  (forall data e,
     post_chat_messages request data = Rejected e ->
     outcome_of (chatService.sendMessage request data) s = Rejected e) /\
  (forall sid prov model e,
     get_chat_history request sid prov model = Rejected e ->
     outcome_of (chatService.getChatHistory request sid prov model) s
     = Resolved []) /\
  (forall sid prov model,
     outcome_of (chatService.deleteSession request sid prov model) s =
     Resolved
       (match delete_chat_session request sid prov model with
        | Resolved _ => true
        | Rejected _ => false
        end)) /\
  outcome_of (chatService.testConnection request) s =
  Resolved
    (match get_chat_test request with
     | Resolved _ => true
     | Rejected _ => false
     end).
Proof.
  unfold outcome_of. repeat split.
  - intros data e H. rewrite createSession_run, H. reflexivity.
  - intros data e H. rewrite sendMessage_run, H. reflexivity.
  - intros sid prov model e H. rewrite getChatHistory_run, H. reflexivity.
  - intros sid prov model. rewrite deleteSession_run.
    destruct (delete_chat_session request sid prov model); reflexivity.
  - rewrite testConnection_run. destruct (get_chat_test request); reflexivity.
Qed.

(** The contract on a backend that is down. *)
Lemma C8_client_error_contract_offline :
  outcome_of (chatService.createSession Sample.offline
                (createSessionRequest Sample.props)) tt
  = Rejected Sample.down /\
  outcome_of (chatService.getChatHistory Sample.offline "s1" "openai" "gpt") tt
  = Resolved [] /\
  outcome_of (chatService.deleteSession Sample.offline "s1" "openai" "gpt") tt
  = Resolved false /\
  outcome_of (chatService.testConnection Sample.offline) tt = Resolved false.
Proof.
  pose proof (C8_client_error_contract unit Sample.offline tt)
    as (Hcreate & _ & Hhist & Hdel & Htest).
  split; [apply Hcreate; reflexivity|].
  split; [apply (Hhist "s1" "openai" "gpt" Sample.down); reflexivity|].
  split; [exact (Hdel "s1" "openai" "gpt")|exact Htest].
Defined.

(** ** Runs of the panel's handlers *)

Section PanelRuns.
Variable request : Request.
Variable p : Props.
Implicit Types (st : PanelState) (index : Z).

Ltac run_bootstrap :=
  unfold ChatPanel.initializeChat, ChatContainer.initializeChat,
    try_finally, try_catch, bind, update;
  rewrite createSession_run.

Ltac run_send :=
  unfold ChatPanel.handleSendMessage, ChatPanel.optimisticAppend,
    ChatPanel.sendRoundTrip, ChatContainer.handleSendMessage,
    try_finally, try_catch, bind, update.

Lemma initializeChat_failed st e :
  post_chat_sessions request (createSessionRequest p) = Rejected e ->
  ChatPanel.initializeChat request p st =
  (Resolved tt, setIsInitializing false (setIsInitializing true st),
   [Http (PostChatSessions (createSessionRequest p));
    ConsoleError "Failed to create chat session:" e;
    ConsoleError "Failed to initialize chat:" e;
    ToastError "聊天会话加载失败"]).
Proof. intros H. run_bootstrap. rewrite H. reflexivity. Qed.

Lemma initializeChat_fresh st session :
  post_chat_sessions request (createSessionRequest p) = Resolved session ->
  String.eqb (status session) "existing" = false ->
  ChatPanel.initializeChat request p st =
  (Resolved tt,
   setIsInitializing false
     (setMessages (fun _ => welcome session)
        (setSessionId (session_id session) (setIsInitializing true st))),
   [Http (PostChatSessions (createSessionRequest p));
    ToastSuccess "聊天会话已创建"]).
Proof. intros H Hs. run_bootstrap. rewrite H, Hs. reflexivity. Qed.

Lemma initializeChat_resumed st session :
  post_chat_sessions request (createSessionRequest p) = Resolved session ->
  String.eqb (status session) "existing" = true ->
  let st1 :=
    setSessionId (session_id session) (setIsInitializing true st) in
  let sid := session_id session in
  let calls :=
    [Http (PostChatSessions (createSessionRequest p));
     Http (GetChatHistory sid (providerId p) (modelName p))] in
  ChatPanel.initializeChat request p st =
  match get_chat_history request sid (providerId p) (modelName p) with
  | Resolved r =>
      let h := match history r with Some h => h | None => [] end in
      if len h >? 0 then
        (Resolved tt, setIsInitializing false (setMessages (fun _ => h) st1),
         calls ++ [ToastSuccess "聊天记录已加载"])
      else
        (Resolved tt,
         setIsInitializing false (setMessages (fun _ => welcome session) st1),
         calls)
  | Rejected e =>
      (Resolved tt,
       setIsInitializing false (setMessages (fun _ => welcome session) st1),
       calls ++ [ConsoleError "Failed to get chat history:" e])
  end.
Proof.
  intros H Hs. run_bootstrap. rewrite H, Hs, getChatHistory_run.
  destruct (get_chat_history request (session_id session) (providerId p)
              (modelName p)) as [r|e]; [|reflexivity].
  destruct (len match history r with Some h => h | None => [] end >? 0);
    reflexivity.
Qed.

Lemma handleSendMessage_guarded st :
  ChatPanel.sendGuard st = true ->
  ChatPanel.handleSendMessage request p st = (Resolved tt, st, []).
Proof. intros H. unfold ChatPanel.handleSendMessage. now rewrite H. Qed.

Lemma handleSendMessage_run st :
  ChatPanel.sendGuard st = false ->
  let userMessage := message user (inputMessage st) in
  let data := ChatPanel.sendRequest p st in
  let st1 :=
    setIsLoading true
      (setInputMessage ""
         (setMessages (fun prev => prev ++ [userMessage]) st)) in
  ChatPanel.handleSendMessage request p st =
  match post_chat_messages request data with
  | Resolved r =>
      (Resolved tt,
       setIsLoading false
         (setMessages (fun prev => prev ++ [message assistant (response r)])
            st1),
       [Http (PostChatMessages data)])
  | Rejected e =>
      (Resolved tt,
       setIsLoading false (setMessages (fun prev => slice prev 0 (-1)) st1),
       [Http (PostChatMessages data);
        ConsoleError "Failed to send message:" e;
        ConsoleError "Failed to send message:" e;
        ToastError "消息发送失败"])
  end.
Proof.
  intros H. run_send. rewrite H, sendMessage_run.
  destruct (post_chat_messages request (ChatPanel.sendRequest p st));
    reflexivity.
Qed.

Lemma ChatContainer_handleSendMessage_run st :
  ChatContainer.sendGuard st = false ->
  let userMessage := message user (inputMessage st) in
  let data := ChatContainer.sendRequest p st in
  let st1 :=
    setIsLoading true
      (setInputMessage ""
         (setMessages (fun prev => prev ++ [userMessage]) st)) in
  ChatContainer.handleSendMessage request p st =
  match post_chat_messages request data with
  | Resolved r =>
      (Resolved tt,
       setIsLoading false
         (setMessages (fun prev => prev ++ [message assistant (response r)])
            st1),
       [Http (PostChatMessages data)])
  | Rejected e =>
      (Resolved tt,
       setIsLoading false (setMessages (fun prev => slice prev 0 (-1)) st1),
       [Http (PostChatMessages data);
        ConsoleError "Failed to send message:" e;
        ConsoleError "Failed to send message:" e;
        ToastError "消息发送失败"])
  end.
Proof.
  intros H. run_send. rewrite H, sendMessage_run.
  destruct (post_chat_messages request (ChatContainer.sendRequest p st));
    reflexivity.
Qed.

(** Enter without Shift is a submit. *)
Lemma handleKeyPress_enter st :
  store_after
    (ChatPanel.handleKeyPress request p {| key := "Enter"; shiftKey := false |})
    st
  = store_after (ChatPanel.handleSendMessage request p) st.
Proof.
  unfold store_after, ChatPanel.handleKeyPress, bind, emit. simpl.
  destruct (ChatPanel.handleSendMessage request p st) as [[o st'] t].
  destruct o; reflexivity.
Qed.

(** The older panel shows the welcome entry whatever the status of the
    session. *)
Lemma ChatContainer_initializeChat_welcome st session :
  post_chat_sessions request (createSessionRequest p) = Resolved session ->
  messages (store_after (ChatContainer.initializeChat request p) st)
  = welcome session.
Proof.
  intros H. unfold store_after. run_bootstrap. rewrite H. reflexivity.
Qed.

Lemma handleDeleteMessage_welcome st :
  ChatPanel.handleDeleteMessage 0 st =
  (Resolved tt, st, [ToastError "不能删除欢迎消息"]).
Proof. reflexivity. Qed.

Lemma handleDeleteMessage_entry st index m :
  index <> 0 ->
  at_index (messages st) index = Some m ->
  ChatPanel.handleDeleteMessage index st =
  (Resolved tt,
   setMessages
     (fun _ => splice (messages st) index
                 (if Role_eqb (role m) user then 2 else 1)) st,
   [ToastSuccess "消息已删除"]).
Proof.
  intros H0 Hm. unfold ChatPanel.handleDeleteMessage, bind, update.
  destruct (Z.eqb_spec index 0) as [E|_]; [contradiction|].
  rewrite Hm. simpl. destruct (Role_eqb (role m) user); reflexivity.
Qed.

Lemma handleDeleteMessage_undefined st index :
  index <> 0 ->
  at_index (messages st) index = None ->
  ChatPanel.handleDeleteMessage index st =
  (Rejected
     (TypeError "Cannot read properties of undefined (reading 'role')"),
   st, []).
Proof.
  intros H0 Hm. unfold ChatPanel.handleDeleteMessage, bind.
  destruct (Z.eqb_spec index 0) as [E|_]; [contradiction|].
  rewrite Hm. reflexivity.
Qed.

Lemma deleteButtons_spec st index :
  In index (ChatPanel.deleteButtons st) <-> 0 < index < len (messages st).
Proof.
  unfold ChatPanel.deleteButtons, len. rewrite filter_In, in_map_iff.
  split.
  - intros [(n & <- & Hn) Hpos]. apply in_seq in Hn. lia.
  - intros H. split; [|lia].
    exists (Z.to_nat index). split; [lia|]. apply in_seq. lia.
Qed.
End PanelRuns.

(** ** Message deletion *)

(** C1.  On the list [W, U1, A1, U2, A2], with U1 a user turn and A1 an
    assistant turn: deleting index 1 leaves [W, U2, A2] (the user turn and
    the entry after it go together); deleting index 2 leaves
    [W, U1, U2, A2] (that entry alone goes); deleting index 0 changes
    nothing and surfaces the rejection notice. *)
Theorem C1_deletion_pairing
  (st : PanelState) (W U2 A2 : ChatMessage) (u1 a1 : string)
  (t1 t2 : option string) :
  let U1 := {| role := user; content := u1; timestamp := t1 |} in
  let A1 := {| role := assistant; content := a1; timestamp := t2 |} in
  let shown := setMessages (fun _ => [W; U1; A1; U2; A2]) st in
  ChatPanel.handleDeleteMessage 1 shown =
    (Resolved tt, setMessages (fun _ => [W; U2; A2]) st,
     [ToastSuccess "消息已删除"]) /\
  ChatPanel.handleDeleteMessage 2 shown =
    (Resolved tt, setMessages (fun _ => [W; U1; U2; A2]) st,
     [ToastSuccess "消息已删除"]) /\
  ChatPanel.handleDeleteMessage 0 shown =
    (Resolved tt, shown, [ToastError "不能删除欢迎消息"]).
Proof. intros U1 A1 shown. repeat split. Qed.

(** C9.  Deletion is total exactly on the positions of rendered delete
    buttons.  For every index with 0 < index < length the handler returns
    normally; at the last position it removes that entry alone, also when
    it is a user turn (the removal of two is clipped at the end of the
    list).  For an index > 0 at or past the end, it throws while reading
    [role] of a missing entry, and the list is left as it was.  The panel
    renders a delete button for the indices 0 < index < length and no
    other. *)
Theorem C9_deletion_total_in_bounds (st : PanelState) (index : Z) :
  (0 < index < len (messages st) ->
   outcome_of (ChatPanel.handleDeleteMessage index) st = Resolved tt /\
   (index = len (messages st) - 1 ->
    messages (store_after (ChatPanel.handleDeleteMessage index) st)
    = removelast (messages st))) /\
  (0 < index -> len (messages st) <= index ->
   ChatPanel.handleDeleteMessage index st =
   (Rejected (TypeError "Cannot read properties of undefined (reading 'role')"),
    st, [])) /\
  (In index (ChatPanel.deleteButtons st) <-> 0 < index < len (messages st)).
Proof.
  split; [|split].
  - intros Hin.
    destruct (at_index_in_range (messages st) index) as [m Hm]; [lia|].
    unfold outcome_of, store_after.
    rewrite (handleDeleteMessage_entry st index m) by (assumption || lia).
    split; [reflexivity|]. intros ->. simpl.
    apply splice_last; [lia|]. destruct (Role_eqb (role m) user); lia.
  - intros Hpos Hout. apply handleDeleteMessage_undefined; [lia|].
    now apply at_index_out_of_range.
  - apply deleteButtons_spec.
Qed.

(** A user turn in last position, and an index past the end. *)
Lemma C9_deletion_total_in_bounds_sample :
  messages
    (store_after (ChatPanel.handleDeleteMessage 3)
       (Sample.ready [Sample.W; Sample.U1; Sample.A1; Sample.U2] ""))
  = [Sample.W; Sample.U1; Sample.A1] /\
  outcome_of (ChatPanel.handleDeleteMessage 4)
    (Sample.ready [Sample.W; Sample.U1; Sample.A1; Sample.U2] "")
  = Rejected (TypeError "Cannot read properties of undefined (reading 'role')").
Proof.
  pose proof (C9_deletion_total_in_bounds
                (Sample.ready [Sample.W; Sample.U1; Sample.A1; Sample.U2] "")
                3) as (Hin & _).
  pose proof (C9_deletion_total_in_bounds
                (Sample.ready [Sample.W; Sample.U1; Sample.A1; Sample.U2] "")
                4) as (_ & Hout & _).
  split.
  - destruct Hin as [_ Hlast]; [vm_compute; split; reflexivity|].
    apply Hlast. reflexivity.
  - unfold outcome_of. rewrite Hout; [reflexivity|lia|vm_compute; discriminate].
Defined.

(** ** Sending *)

(** C2.  A failed send leaves the message list as it was before the attempt:
    when the guard lets the submit through and the remote call fails, the
    optimistic user turn is appended, the failure is notified, and the
    rollback removes the last entry, which is that user turn.  This holds
    for both versions of the panel, the round trip running from the submit
    to its end. *)
Theorem C2_failed_send_restores_list
  (request : Request) (p : Props) (st : PanelState) :
  (forall e,
     ChatPanel.sendGuard st = false ->
     post_chat_messages request (ChatPanel.sendRequest p st) = Rejected e ->
     messages (store_after (ChatPanel.optimisticAppend st) st)
     = messages st ++ [message user (inputMessage st)] /\
     messages (store_after (ChatPanel.handleSendMessage request p) st)
     = messages st /\
     failure_notices (trace_of (ChatPanel.handleSendMessage request p) st)
     = [ToastError "消息发送失败"]) /\
  (forall e,
     ChatContainer.sendGuard st = false ->
     post_chat_messages request (ChatContainer.sendRequest p st) = Rejected e ->
     messages (store_after (ChatContainer.handleSendMessage request p) st)
     = messages st /\
     failure_notices (trace_of (ChatContainer.handleSendMessage request p) st)
     = [ToastError "消息发送失败"]).
Proof.
  unfold store_after, trace_of. split.
  - intros e Hguard Hfail. split; [reflexivity|].
    rewrite handleSendMessage_run, Hfail by assumption. simpl.
    split; [apply slice_drops_appended|reflexivity].
  - intros e Hguard Hfail.
    rewrite ChatContainer_handleSendMessage_run, Hfail by assumption. simpl.
    split; [apply slice_drops_appended|reflexivity].
Qed.

(** A question sent while the backend is down. *)
Lemma C2_failed_send_restores_list_sample :
  messages
    (store_after (ChatPanel.handleSendMessage Sample.flaky Sample.props)
       (Sample.ready [Sample.W; Sample.U1; Sample.A1] "What is X?"))
  = [Sample.W; Sample.U1; Sample.A1] /\
  messages
    (store_after (ChatContainer.handleSendMessage Sample.flaky Sample.props)
       (Sample.ready [Sample.W; Sample.U1; Sample.A1] "What is X?"))
  = [Sample.W; Sample.U1; Sample.A1].
Proof.
  pose proof (C2_failed_send_restores_list Sample.flaky Sample.props
                (Sample.ready [Sample.W; Sample.U1; Sample.A1] "What is X?"))
    as [Hpanel Hcontainer].
  split.
  - apply (Hpanel Sample.down); reflexivity.
  - apply (Hcontainer Sample.down); reflexivity.
Defined.

(** C5.  A successful send of the input [m], answered with [r], appends
    exactly two entries to the message list, first the user turn with
    content [m], then the assistant turn with content [r]; the entries that
    were there stay as they were.  [m] is also the message sent. *)
Theorem C5_successful_send_appends_pair
  (request : Request) (p : Props) (st : PanelState)
  (reply : SendMessageResponse) :
  ChatPanel.sendGuard st = false ->
  post_chat_messages request (ChatPanel.sendRequest p st) = Resolved reply ->
  messages (store_after (ChatPanel.handleSendMessage request p) st)
  = messages st ++
    [message user (inputMessage st); message assistant (response reply)] /\
  sm_message (ChatPanel.sendRequest p st) = inputMessage st.
Proof.
  intros Hguard Hok. unfold store_after.
  rewrite handleSendMessage_run, Hok by assumption. simpl.
  split; [|reflexivity]. rewrite <- app_assoc. reflexivity.
Qed.

(** The scenario of the specification. *)
Lemma C5_successful_send_appends_pair_sample :
  messages
    (store_after
       (ChatPanel.handleSendMessage (Sample.online "new" None "X is...")
          Sample.props)
       (Sample.ready [Sample.W] "What is X?"))
  = [Sample.W; message user "What is X?"; message assistant "X is..."].
Proof.
  apply (C5_successful_send_appends_pair
           (Sample.online "new" None "X is...") Sample.props
           (Sample.ready [Sample.W] "What is X?")
           {| response := "X is..."; resp_session_id := "s1" |});
    reflexivity.
Defined.

(** ** Bootstrap *)

(** C4.  After a bootstrap whose [createSession] succeeded: with status
    "new" the message list is the single assistant entry holding the
    welcome message; with status "existing" and a non-empty fetched
    history it is that history, as fetched; with status "existing" and an
    empty history it is the single welcome entry. *)
Theorem C4_bootstrap_postcondition
  (request : Request) (p : Props) (st : PanelState) (session : ChatSession) :
  post_chat_sessions request (createSessionRequest p) = Resolved session ->
  let booted := store_after (ChatPanel.initializeChat request p) st in
  let fetched :=
    get_chat_history request (session_id session) (providerId p)
      (modelName p) in
  (status session = "new" ->
   messages booted = [message assistant (welcome_message session)]) /\
  (forall h,
     status session = "existing" ->
     fetched = Resolved {| history := Some h |} -> h <> [] ->
     messages booted = h) /\
  (status session = "existing" ->
   fetched = Resolved {| history := Some [] |} ->
   messages booted = [message assistant (welcome_message session)]).
Proof.
  intros Hok booted fetched. subst booted fetched. unfold store_after.
  split; [|split].
  - intros Hnew. rewrite (initializeChat_fresh request p st session Hok).
    + reflexivity.
    + rewrite Hnew. reflexivity.
  - intros h Hex Hfetch Hne.
    rewrite (initializeChat_resumed request p st session Hok)
      by (rewrite Hex; reflexivity).
    rewrite Hfetch. simpl history.
    destruct h as [|m h']; [contradiction|]. reflexivity.
  - intros Hex Hfetch.
    rewrite (initializeChat_resumed request p st session Hok)
      by (rewrite Hex; reflexivity).
    rewrite Hfetch. reflexivity.
Qed.

(** A resumed session with two turns of history. *)
Lemma C4_bootstrap_postcondition_sample :
  messages
    (store_after
       (ChatPanel.initializeChat
          (Sample.online "existing" (Some [Sample.U1; Sample.A1]) "")
          Sample.props) mounted)
  = [Sample.U1; Sample.A1].
Proof.
  destruct (C4_bootstrap_postcondition
              (Sample.online "existing" (Some [Sample.U1; Sample.A1]) "")
              Sample.props mounted (Sample.session "existing") eq_refl)
    as (_ & Hhistory & _).
  apply Hhistory; [reflexivity|reflexivity|discriminate].
Defined.

(** Every bootstrap returns normally, with the initializing flag released
    and the sending flag untouched. *)
Lemma initializeChat_completes request p st :
  outcome_of (ChatPanel.initializeChat request p) st = Resolved tt /\
  isInitializing (store_after (ChatPanel.initializeChat request p) st) = false /\
  isLoading (store_after (ChatPanel.initializeChat request p) st) = isLoading st.
Proof.
  unfold outcome_of, store_after.
  destruct (post_chat_sessions request (createSessionRequest p))
    as [session|e] eqn:Hcreate.
  - destruct (String.eqb (status session) "existing") eqn:Hstatus.
    + rewrite (initializeChat_resumed request p st session Hcreate Hstatus).
      destruct (get_chat_history request (session_id session) (providerId p)
                  (modelName p)) as [r|e]; [cbv zeta|repeat split].
      destruct (len match history r with Some h => h | None => [] end >? 0);
        repeat split.
    + rewrite (initializeChat_fresh request p st session Hcreate Hstatus).
      repeat split.
  - rewrite (initializeChat_failed request p st e Hcreate). repeat split.
Qed.





(** C3, as the code has it.  When the bootstrap resumes an "existing"
    session and the history fetch fails, [getChatHistory] catches the
    failure and answers with the empty sequence: the bootstrap does not take
    its failure path, the session id is set, the message list is the single
    welcome entry and no failure is notified.  The delete and probe calls
    likewise end in a boolean, never in an error. *)
Theorem C3_history_failure_falls_back_to_welcome
  (request : Request) (p : Props) (st : PanelState) (session : ChatSession)
  (e : Error) :
  post_chat_sessions request (createSessionRequest p) = Resolved session ->
  status session = "existing" ->
  get_chat_history request (session_id session) (providerId p) (modelName p)
  = Rejected e ->
  let booted := store_after (ChatPanel.initializeChat request p) st in
  outcome_of
    (chatService.getChatHistory request (session_id session) (providerId p)
       (modelName p)) st = Resolved [] /\
  messages booted = [message assistant (welcome_message session)] /\
  sessionId booted = session_id session /\
  isInitializing booted = false /\
  failure_notices (trace_of (ChatPanel.initializeChat request p) st) = [] /\
  (forall sid prov model, exists b,
     outcome_of (chatService.deleteSession request sid prov model) st
     = Resolved b) /\
  (exists b, outcome_of (chatService.testConnection request) st = Resolved b).
Proof.
  intros Hcreate Hstatus Hfetch booted. subst booted.
  unfold outcome_of, store_after, trace_of.
  rewrite (initializeChat_resumed request p st session Hcreate)
    by (rewrite Hstatus; reflexivity).
  rewrite getChatHistory_run, Hfetch. simpl.
  repeat split.
  - intros sid prov model. rewrite deleteSession_run.
    destruct (delete_chat_session request sid prov model); eexists; reflexivity.
  - rewrite testConnection_run.
    destruct (get_chat_test request); eexists; reflexivity.
Qed.

(** A resumed session whose history cannot be fetched. *)
Lemma C3_history_failure_falls_back_to_welcome_sample :
  messages
    (store_after (ChatPanel.initializeChat Sample.flaky Sample.props) mounted)
  = [Sample.W] /\
  failure_notices
    (trace_of (ChatPanel.initializeChat Sample.flaky Sample.props) mounted)
  = [].
Proof.
  destruct (C3_history_failure_falls_back_to_welcome Sample.flaky Sample.props
              mounted (Sample.session "existing") Sample.down
              eq_refl eq_refl eq_refl)
    as (_ & Hmessages & _ & _ & Hnotices & _).
  split; [exact Hmessages|exact Hnotices].
Defined.

(** C3, as the specification words it, fails: on a backend that resumes a
    session and then fails to deliver the history, the bootstrap ends with
    the welcome entry in the message list and without a failure notice,
    unlike the bootstrap on a backend where [createSession] fails. *)
Lemma C3_history_failure_does_not_reach_failure_path :
  post_chat_sessions Sample.flaky (createSessionRequest Sample.props)
  = Resolved (Sample.session "existing") /\
  get_chat_history Sample.flaky "s1" "openai" "gpt" = Rejected Sample.down /\
  messages
    (store_after (ChatPanel.initializeChat Sample.flaky Sample.props) mounted)
  = [message assistant "Hi"] /\
  ~ (messages
       (store_after (ChatPanel.initializeChat Sample.flaky Sample.props)
          mounted) = [] /\
     failure_notices
       (trace_of (ChatPanel.initializeChat Sample.flaky Sample.props) mounted)
     <> []) /\
  store_after (ChatPanel.initializeChat Sample.flaky Sample.props) mounted
  <> store_after (ChatPanel.initializeChat Sample.offline Sample.props) mounted.
Proof.
  repeat split; try reflexivity.
  - intros [Hempty _]. discriminate Hempty.
  - intros Hsame. discriminate Hsame.
Qed.

(** ** The panel as a transition system *)

Section MachineFacts.
Import Machine.
Variable request : Request.
Variable p : Props.
Implicit Types (st : PanelState) (panel : Panel).

Lemma settle_run o st :
  settle o st =
  match o with
  | Resolved r =>
      setIsLoading false
        (setMessages (fun prev => prev ++ [message assistant (response r)])
           st)
  | Rejected _ =>
      setIsLoading false (setMessages (fun prev => slice prev 0 (-1)) st)
  end.
Proof. destruct o; reflexivity. Qed.

(** The round trip of [handleSendMessage] is a submit followed by the
    settling of its request. *)
Lemma handleSendMessage_as_steps st :
  ChatPanel.sendGuard st = false ->
  let sent := submit p {| view := st; inflight := [] |} in
  inflight sent = [ChatPanel.sendRequest p st] /\
  store_after (ChatPanel.handleSendMessage request p) st
  = settle (post_chat_messages request (ChatPanel.sendRequest p st))
      (view sent).
Proof.
  intros Hguard. unfold submit, store_after. simpl view.
  rewrite Hguard, handleSendMessage_run by assumption.
  split; [reflexivity|]. rewrite settle_run.
  destruct (post_chat_messages request (ChatPanel.sendRequest p st));
    reflexivity.
Qed.

Lemma sendGuard_true st :
  isLoading st = true \/ trim (inputMessage st) = "" \/ sessionId st = "" ->
  ChatPanel.sendGuard st = true.
Proof.
  unfold ChatPanel.sendGuard. intros [H|[H|H]]; rewrite H; simpl.
  - apply orb_true_r.
  - reflexivity.
  - destruct (falsy (trim (inputMessage st))); reflexivity.
Qed.

Lemma sendGuard_false st :
  ChatPanel.sendGuard st = false -> isLoading st = false.
Proof.
  unfold ChatPanel.sendGuard. intros H.
  apply orb_false_iff in H. tauto.
Qed.

Lemma handleDeleteMessage_keeps_flag st index :
  isLoading (store_after (ChatPanel.handleDeleteMessage index) st)
  = isLoading st.
Proof.
  unfold store_after, ChatPanel.handleDeleteMessage, bind, update.
  destruct (index =? 0); [reflexivity|].
  destruct (at_index (messages st) index) as [m|]; [|reflexivity].
  simpl. destruct (Role_eqb (role m) user); reflexivity.
Qed.

Lemma submit_one_outstanding panel :
  one_outstanding panel -> one_outstanding (submit p panel).
Proof.
  intros Hinv. unfold submit.
  destruct (ChatPanel.sendGuard (view panel)) eqn:Hguard; [assumption|].
  apply sendGuard_false in Hguard.
  destruct Hinv as [[_ Hnone]|[Hflag _]]; [|congruence].
  right. simpl. rewrite Hnone. split; [reflexivity|eexists; reflexivity].
Qed.

Lemma step_one_outstanding panel ev panel' :
  one_outstanding panel -> step p panel ev = Some panel' ->
  one_outstanding panel'.
Proof.
  intros Hinv Hstep. destruct ev as [value| |e|index|o]; simpl in Hstep.
  - destruct (isLoading (view panel)) eqn:Hflag; [discriminate|].
    injection Hstep as <-.
    destruct Hinv as [[_ Hnone]|[Hup _]]; [|congruence].
    left. simpl. now split.
  - injection Hstep as <-. now apply submit_one_outstanding.
  - destruct (isLoading (view panel)); [discriminate|].
    destruct (String.eqb (key e) "Enter" && negb (shiftKey e));
      injection Hstep as <-; [now apply submit_one_outstanding|assumption].
  - destruct (existsb (Z.eqb index) (ChatPanel.deleteButtons (view panel)));
      [|discriminate].
    injection Hstep as <-. unfold one_outstanding. simpl.
    rewrite handleDeleteMessage_keeps_flag. exact Hinv.
  - destruct (inflight panel) as [|data rest] eqn:Hpending; [discriminate|].
    injection Hstep as <-. unfold one_outstanding in Hinv.
    rewrite Hpending in Hinv.
    destruct Hinv as [[_ Hnone]|[_ [d Hone]]]; [discriminate|].
    injection Hone as _ ->. left. simpl.
    split; [destruct o; reflexivity|reflexivity].
Qed.

Lemma reachable_one_outstanding panel :
  reachable request p panel -> one_outstanding panel.
Proof.
  induction 1 as [|panel ev panel' _ IH Hstep].
  - left. unfold booted. simpl. split; [|reflexivity].
    destruct (initializeChat_completes request p mounted) as (_ & _ & ->).
    reflexivity.
  - exact (step_one_outstanding panel ev panel' IH Hstep).
Qed.

Lemma run_reachable evs : forall panel panel',
  reachable request p panel -> run p panel evs = Some panel' ->
  reachable request p panel'.
Proof.
  induction evs as [|ev evs IH]; intros panel panel' Hreach Hrun;
    simpl in Hrun.
  - injection Hrun as <-. assumption.
  - destruct (step p panel ev) as [next|] eqn:Hstep; [|discriminate].
    apply (IH next panel'); [|assumption].
    exact (reach_step request p panel ev next Hreach Hstep).
Qed.
End MachineFacts.

(** C6.  A submit made while the sending flag is up, or with an input that
    is empty once trimmed, or without a session id, adds no entry to the
    message list and issues no remote call: the handler returns with the
    state as it was and an empty trace, and no request joins the pending
    ones.  In every state the panel can reach, at most one send request is
    pending, and one is pending exactly while the sending flag is up. *)
Theorem C6_submit_guard (request : Request) (p : Props) :
  (forall st,
     isLoading st = true \/ trim (inputMessage st) = "" \/ sessionId st = "" ->
     ChatPanel.handleSendMessage request p st = (Resolved tt, st, []) /\
     forall pending,
       Machine.submit p {| Machine.view := st; Machine.inflight := pending |}
       = {| Machine.view := st; Machine.inflight := pending |}) /\
  (forall panel,
     Machine.reachable request p panel ->
     (length (Machine.inflight panel) <= 1)%nat /\
     (isLoading (Machine.view panel) = true <-> Machine.inflight panel <> [])).
Proof.
  split.
  - intros st Hblocked. apply sendGuard_true in Hblocked. split.
    + now apply handleSendMessage_guarded.
    + intros pending. unfold Machine.submit. simpl. now rewrite Hblocked.
  - intros panel Hreach.
    destruct (reachable_one_outstanding request p panel Hreach)
      as [[Hflag Hnone]|[Hflag [data Hone]]].
    + rewrite Hflag, Hnone. simpl. split; [lia|].
      split; [discriminate|intros H; now contradiction H].
    + rewrite Hflag, Hone. simpl. split; [lia|].
      split; [discriminate|reflexivity].
Qed.

(** A second submit while the first one is pending, and the panel after a
    submit. *)
Lemma C6_submit_guard_sample :
  ChatPanel.handleSendMessage (Sample.online "new" None "a1") Sample.props
    Sample.busy
  = (Resolved tt, Sample.busy, []) /\
  match
    Machine.run Sample.props
      (Machine.booted (Sample.online "new" None "a1") Sample.props)
      [Machine.Change "q1"; Machine.Submit; Machine.Submit]
  with
  | Some panel => (length (Machine.inflight panel) <= 1)%nat
  | None => False
  end.
Proof.
  destruct (C6_submit_guard (Sample.online "new" None "a1") Sample.props)
    as [Hguard Hreach].
  split.
  - apply (Hguard Sample.busy). left. reflexivity.
  - destruct (Machine.run Sample.props
                (Machine.booted (Sample.online "new" None "a1") Sample.props)
                [Machine.Change "q1"; Machine.Submit; Machine.Submit])
      as [panel|] eqn:Hrun; [|discriminate Hrun].
    apply Hreach.
    exact (run_reachable _ _ _ _ _ (Machine.reach_booted _ _) Hrun).
Defined.

(** ** The first entry of the list *)

Lemma at_index_Some_range {A} (l : list A) (i : Z) (a : A) :
  at_index l i = Some a -> 0 <= i < len l.
Proof.
  unfold at_index, len. intros H.
  destruct (Z.ltb_spec i 0) as [Hneg|Hge]; [discriminate|].
  assert (Hlt : (Z.to_nat i < length l)%nat)
    by (apply nth_error_Some; congruence).
  lia.
Qed.

(** When no other handler runs between a submit and the end of its round
    trip, neither a send nor a deletion empties a non-empty list. *)
Lemma handlers_keep_list_nonempty request p st :
  messages st <> [] ->
  messages (store_after (ChatPanel.handleSendMessage request p) st) <> [] /\
  forall index,
    messages (store_after (ChatPanel.handleDeleteMessage index) st) <> [].
Proof.
  intros Hne. unfold store_after. split.
  - destruct (ChatPanel.sendGuard st) eqn:Hguard.
    + now rewrite handleSendMessage_guarded.
    + rewrite handleSendMessage_run by assumption.
      destruct (post_chat_messages request (ChatPanel.sendRequest p st)); simpl.
      * intros H. apply app_eq_nil in H as [_ H]. discriminate H.
      * now rewrite slice_drops_appended.
  - intros index. destruct (Z.eq_dec index 0) as [->|Hnz]; [assumption|].
    destruct (at_index (messages st) index) as [m|] eqn:Hm.
    + rewrite (handleDeleteMessage_entry st index m Hnz Hm). simpl.
      apply at_index_Some_range in Hm.
      assert (Hlen : (Z.to_nat index
                      <= length (splice (messages st) index
                                   (if Role_eqb (role m) user then 2 else 1)))%nat).
      { apply length_splice_lower; [assumption|].
        destruct (Role_eqb (role m) user); lia. }
      intros Hnil. rewrite Hnil in Hlen. simpl in Hlen. lia.
    + now rewrite (handleDeleteMessage_undefined st index Hnz Hm).
Qed.

(** C10 on the code.  After a successful bootstrap the list is [W].  The
    user submits a question: the list is [W, U] and the request is pending.
    The delete button of U is rendered and enabled; the user clicks it: the
    list is [W] again.  The request then fails, and the rollback removes the
    last entry of the list, which is now W: the list is empty. *)
Theorem C10_rollback_after_delete_empties_list :
  let backend := Sample.online "new" None "X is..." in
  let start := Machine.booted backend Sample.props in
  messages (Machine.view start) = [Sample.W] /\
  (exists panel,
     Machine.run Sample.props start [Machine.Change "What is X?"; Machine.Submit]
     = Some panel /\
     messages (Machine.view panel) = [Sample.W; message user "What is X?"] /\
     isLoading (Machine.view panel) = true /\
     ChatPanel.deleteButtons (Machine.view panel) = [1]) /\
  (exists panel,
     Machine.run Sample.props start
       [Machine.Change "What is X?"; Machine.Submit; Machine.ClickDelete 1]
     = Some panel /\
     messages (Machine.view panel) = [Sample.W]) /\
  (exists panel,
     Machine.run Sample.props start
       [Machine.Change "What is X?"; Machine.Submit; Machine.ClickDelete 1;
        Machine.Settle (Rejected Sample.down)]
     = Some panel /\
     Machine.reachable backend Sample.props panel /\
     messages (Machine.view panel) = []).
Proof.
  intros backend start. split; [reflexivity|].
  split; [eexists; repeat split|].
  split; [eexists; repeat split|].
  eexists. split; [reflexivity|]. split; [|reflexivity].
  apply (run_reachable backend Sample.props
           [Machine.Change "What is X?"; Machine.Submit; Machine.ClickDelete 1;
            Machine.Settle (Rejected Sample.down)] start);
    [apply Machine.reach_booted|reflexivity].
Qed.

(** * Further properties of the code *)

(** ** Blank input *)

Lemma blank_String c s : blank (String c s) = isWhiteSpace c && blank s.
Proof. reflexivity. Qed.

Lemma trimStart_empty s : trimStart s = "" <-> blank s = true.
Proof.
  induction s as [|c s IH].
  - split; reflexivity.
  - rewrite blank_String. simpl trimStart.
    destruct (isWhiteSpace c); simpl; [exact IH|].
    split; discriminate.
Qed.

Lemma blank_trimStart s : blank (trimStart s) = blank s.
Proof.
  induction s as [|c s IH]; [reflexivity|].
  simpl trimStart. destruct (isWhiteSpace c) eqn:Hc.
  - rewrite IH, blank_String, Hc. reflexivity.
  - reflexivity.
Qed.

Lemma reverse_empty s : reverse s = "" <-> s = "".
Proof.
  unfold reverse. split.
  - intros H. destruct s as [|c s]; [reflexivity|].
    simpl in H.
    apply (f_equal list_ascii_of_string) in H.
    rewrite list_ascii_of_string_of_list_ascii in H. simpl in H.
    apply app_eq_nil in H as [_ H]. discriminate H.
  - intros ->. reflexivity.
Qed.

Lemma blank_reverse s : blank (reverse s) = blank s.
Proof.
  unfold blank, reverse. rewrite list_ascii_of_string_of_list_ascii.
  generalize (list_ascii_of_string s) as l. intros l.
  destruct (forallb isWhiteSpace l) eqn:Hl.
  - rewrite forallb_forall in *. intros c Hc. apply Hl.
    now apply in_rev.
  - destruct (forallb isWhiteSpace (rev l)) eqn:Hr; [|reflexivity].
    rewrite <- Hl. symmetry. rewrite forallb_forall in *.
    intros c Hc. apply Hr. now apply in_rev in Hc.
Qed.

(** The trimmed input is empty exactly for a blank input. *)
Lemma falsy_trim s : falsy (trim s) = blank s.
Proof.
  assert (H : trim s = "" <-> blank s = true).
  { unfold trim, trimEnd. rewrite reverse_empty, trimStart_empty.
    rewrite blank_reverse, blank_trimStart. reflexivity. }
  destruct (blank s).
  - apply falsy_empty, H. reflexivity.
  - destruct (falsy (trim s)) eqn:Hf; [|reflexivity].
    apply falsy_empty, H in Hf. discriminate Hf.
Qed.

Lemma sendGuard_blank st :
  ChatPanel.sendGuard st
  = blank (inputMessage st) || falsy (sessionId st) || isLoading st.
Proof. unfold ChatPanel.sendGuard. now rewrite falsy_trim. Qed.

Lemma falsy_false_iff s : falsy s = false <-> s <> "".
Proof. destruct s; simpl; split; congruence. Qed.

(** X1.  A submit goes through exactly when the input holds a character
    that is not white space, a session id is set and no send is pending. *)
Theorem X1_submit_goes_through_iff (st : PanelState) :
  ChatPanel.sendGuard st = false <->
  blank (inputMessage st) = false /\ sessionId st <> "" /\ isLoading st = false.
Proof.
  rewrite sendGuard_blank, !orb_false_iff, falsy_false_iff. tauto.
Qed.

(** An input of blanks and a tab, and a question. *)
Lemma X1_submit_goes_through_iff_sample :
  ChatPanel.sendGuard (Sample.ready [Sample.W] "What is X?") = false /\
  ~ ChatPanel.sendGuard
      (Sample.ready [Sample.W] (String (ascii_of_nat 9) "  ")) = false.
Proof.
  split.
  - apply (proj2 (X1_submit_goes_through_iff
                    (Sample.ready [Sample.W] "What is X?"))).
    repeat split. discriminate.
  - intros H.
    apply (proj1 (X1_submit_goes_through_iff
                    (Sample.ready [Sample.W] (String (ascii_of_nat 9) "  "))))
      in H.
    destruct H as [H _]. discriminate H.
Defined.

(** X2.  Whenever a submit would go through, the send button is enabled.
    The converse fails only for a missing session id: with the button
    enabled, the submit goes through exactly when a session id is set, and
    without one the click on the enabled button does nothing and calls
    nothing. *)
Theorem X2_send_button_and_guard (request : Request) (p : Props)
  (st : PanelState) :
  (ChatPanel.sendGuard st = false -> ChatPanelView.sendDisabled st = false) /\
  (ChatPanelView.sendDisabled st = false ->
   (ChatPanel.sendGuard st = false <-> sessionId st <> "")) /\
  (ChatPanelView.sendDisabled st = false -> sessionId st = "" ->
   ChatPanel.handleSendMessage request p st = (Resolved tt, st, [])).
Proof.
  split; [|split].
  - unfold ChatPanelView.sendDisabled, ChatPanel.sendGuard.
    destruct (isLoading st), (falsy (trim (inputMessage st)));
      simpl; congruence || (now rewrite ?orb_true_r).
  - unfold ChatPanelView.sendDisabled, ChatPanel.sendGuard.
    rewrite <- falsy_false_iff.
    destruct (isLoading st), (falsy (trim (inputMessage st)));
      simpl; try discriminate.
    intros _. rewrite orb_false_r. reflexivity.
  - intros _ Hempty. apply handleSendMessage_guarded.
    unfold ChatPanel.sendGuard. rewrite Hempty. simpl.
    destruct (falsy (trim (inputMessage st))); reflexivity.
Qed.

(** After a failed bootstrap the send button comes alive with the first
    character typed, and stays without effect. *)
Lemma X2_send_button_and_guard_sample :
  ChatPanel.handleSendMessage (Sample.online "new" None "X is...")
    Sample.props
    (setInputMessage "What is X?"
       (store_after (ChatPanel.initializeChat Sample.offline Sample.props)
          mounted))
  = (Resolved tt,
     setInputMessage "What is X?"
       (store_after (ChatPanel.initializeChat Sample.offline Sample.props)
          mounted), []).
Proof.
  destruct (X2_send_button_and_guard (Sample.online "new" None "X is...")
              Sample.props
              (setInputMessage "What is X?"
                 (store_after
                    (ChatPanel.initializeChat Sample.offline Sample.props)
                    mounted))) as (_ & _ & Hinert).
  apply Hinert; reflexivity.
Defined.

(** X3.  A key press submits only for Enter without Shift: any other key,
    and Enter with Shift, leave the state as it is and have no effect at
    all; Enter without Shift prevents the default action and then does what
    the send button does. *)
Theorem X3_only_plain_enter_submits (request : Request) (p : Props)
  (e : KeyboardEvent) (st : PanelState) :
  (key e <> "Enter" \/ shiftKey e = true ->
   ChatPanel.handleKeyPress request p e st = (Resolved tt, st, [])) /\
  (key e = "Enter" -> shiftKey e = false ->
   outcome_of (ChatPanel.handleKeyPress request p e) st
   = outcome_of (ChatPanel.handleSendMessage request p) st /\
   store_after (ChatPanel.handleKeyPress request p e) st
   = store_after (ChatPanel.handleSendMessage request p) st /\
   trace_of (ChatPanel.handleKeyPress request p e) st
   = PreventDefault :: trace_of (ChatPanel.handleSendMessage request p) st).
Proof.
  unfold ChatPanel.handleKeyPress. split.
  - intros [Hkey|Hshift].
    + apply String.eqb_neq in Hkey. rewrite Hkey. reflexivity.
    + rewrite Hshift, andb_false_r. reflexivity.
  - intros Hkey Hshift. rewrite Hkey, Hshift. simpl.
    unfold outcome_of, store_after, trace_of, bind, emit.
    destruct (ChatPanel.handleSendMessage request p st) as [[o st'] t].
    destruct o; repeat split.
Qed.

(** Shift+Enter in a panel that is ready to send. *)
Lemma X3_only_plain_enter_submits_sample :
  ChatPanel.handleKeyPress (Sample.online "new" None "X is...") Sample.props
    Fixture.shiftEnter (Sample.ready [Sample.W] "What is X?")
  = (Resolved tt, Sample.ready [Sample.W] "What is X?", []) /\
  messages
    (store_after
       (ChatPanel.handleKeyPress (Sample.online "new" None "X is...")
          Sample.props Fixture.enter)
       (Sample.ready [Sample.W] "What is X?"))
  = [Sample.W; message user "What is X?"; message assistant "X is..."].
Proof.
  destruct (X3_only_plain_enter_submits (Sample.online "new" None "X is...")
              Sample.props Fixture.shiftEnter
              (Sample.ready [Sample.W] "What is X?")) as [Hother _].
  destruct (X3_only_plain_enter_submits (Sample.online "new" None "X is...")
              Sample.props Fixture.enter
              (Sample.ready [Sample.W] "What is X?")) as [_ Henter].
  split.
  - apply Hother. right. reflexivity.
  - destruct (Henter eq_refl eq_refl) as (_ & -> & _). reflexivity.
Defined.

(** ** The API client, continued *)

(** X4.  Every operation of the client issues exactly one remote call, the
    one of its endpoint with the arguments it was given, whether the call
    succeeds or fails: nothing is retried, and the caller's store is not
    touched. *)
Theorem X4_client_issues_one_request (S : Type) (request : Request) (s : S) :
  (forall data,
     remote_calls (trace_of (chatService.createSession request data) s)
     = [Http (PostChatSessions data)] /\
     store_after (chatService.createSession request data) s = s) /\
  (forall data,
     remote_calls (trace_of (chatService.sendMessage request data) s)
     = [Http (PostChatMessages data)] /\
     store_after (chatService.sendMessage request data) s = s) /\
  (forall sid prov model,
     remote_calls
       (trace_of (chatService.getChatHistory request sid prov model) s)
     = [Http (GetChatHistory sid prov model)] /\
     store_after (chatService.getChatHistory request sid prov model) s = s) /\
  (forall sid prov model,
     remote_calls
       (trace_of (chatService.deleteSession request sid prov model) s)
     = [Http (DeleteChatSession sid prov model)] /\
     store_after (chatService.deleteSession request sid prov model) s = s) /\
  remote_calls (trace_of (chatService.testConnection request) s)
  = [Http GetChatTest] /\
  store_after (chatService.testConnection request) s = s.
Proof.
  unfold trace_of, store_after. repeat split; intros.
  - rewrite createSession_run.
    destruct (post_chat_sessions request data); reflexivity.
  - rewrite createSession_run.
    destruct (post_chat_sessions request data); reflexivity.
  - rewrite sendMessage_run.
    destruct (post_chat_messages request data); reflexivity.
  - rewrite sendMessage_run.
    destruct (post_chat_messages request data); reflexivity.
  - rewrite getChatHistory_run.
    destruct (get_chat_history request sid prov model); reflexivity.
  - rewrite getChatHistory_run.
    destruct (get_chat_history request sid prov model); reflexivity.
  - rewrite deleteSession_run.
    destruct (delete_chat_session request sid prov model); reflexivity.
  - rewrite deleteSession_run.
    destruct (delete_chat_session request sid prov model); reflexivity.
  - rewrite testConnection_run. destruct (get_chat_test request); reflexivity.
  - rewrite testConnection_run. destruct (get_chat_test request); reflexivity.
Qed.

(** X5.  On success [createSession] and [sendMessage] hand back the body of
    the response as it came.  [getChatHistory] always returns a list: the
    delivered history as it came, and the empty list when the response has
    no history field. *)
Theorem X5_client_success_values (S : Type) (request : Request) (s : S) :
  (forall data v,
     post_chat_sessions request data = Resolved v ->
     outcome_of (chatService.createSession request data) s = Resolved v) /\
  (forall data v,
     post_chat_messages request data = Resolved v ->
     outcome_of (chatService.sendMessage request data) s = Resolved v) /\
  (forall sid prov model, exists h,
     outcome_of (chatService.getChatHistory request sid prov model) s
     = Resolved h /\
     (forall l,
        get_chat_history request sid prov model
        = Resolved {| history := Some l |} -> h = l) /\
     (get_chat_history request sid prov model
      = Resolved {| history := None |} -> h = [])).
Proof.
  unfold outcome_of. repeat split.
  - intros data v H. rewrite createSession_run, H. reflexivity.
  - intros data v H. rewrite sendMessage_run, H. reflexivity.
  - intros sid prov model. rewrite getChatHistory_run.
    destruct (get_chat_history request sid prov model) as [r|e];
      eexists; (split; [reflexivity|]); split; intros; try discriminate.
    + match goal with H : Resolved _ = Resolved _ |- _ =>
        injection H as -> end. reflexivity.
    + match goal with H : Resolved _ = Resolved _ |- _ =>
        injection H as -> end. reflexivity.
Qed.

(** A history of two turns comes back as it is. *)
Lemma X5_client_success_values_sample :
  outcome_of
    (chatService.getChatHistory
       (Sample.online "existing" (Some [Sample.U1; Sample.A1]) "")
       "s1" "openai" "gpt") tt
  = Resolved [Sample.U1; Sample.A1] /\
  outcome_of
    (chatService.createSession (Sample.online "new" None "")
       (createSessionRequest Sample.props)) tt
  = Resolved (Sample.session "new").
Proof.
  destruct (X5_client_success_values unit
              (Sample.online "existing" (Some [Sample.U1; Sample.A1]) "") tt)
    as (_ & _ & Hhistory).
  destruct (X5_client_success_values unit (Sample.online "new" None "") tt)
    as (Hcreate & _ & _).
  split.
  - destruct (Hhistory "s1" "openai" "gpt") as (h & -> & Hsome & _).
    f_equal. apply Hsome. reflexivity.
  - apply Hcreate. reflexivity.
Defined.

(** ** Bootstrap, continued *)

(** X6.  The bootstrap calls [createSession] once, first, and fetches the
    history exactly when that call succeeded with a session whose status
    is the string "existing"; it makes no other remote call. *)
Theorem X6_bootstrap_remote_calls (request : Request) (p : Props)
  (st : PanelState) :
  remote_calls (trace_of (ChatPanel.initializeChat request p) st) =
  Http (PostChatSessions (createSessionRequest p)) ::
  match post_chat_sessions request (createSessionRequest p) with
  | Resolved session =>
      if String.eqb (status session) "existing"
      then [Http (GetChatHistory (session_id session) (providerId p)
                    (modelName p))]
      else []
  | Rejected _ => []
  end.
Proof.
  unfold trace_of.
  destruct (post_chat_sessions request (createSessionRequest p))
    as [session|e] eqn:Hcreate.
  - destruct (String.eqb (status session) "existing") eqn:Hstatus.
    + rewrite (initializeChat_resumed request p st session Hcreate Hstatus).
      destruct (get_chat_history request (session_id session) (providerId p)
                  (modelName p)) as [r|e]; [cbv zeta|reflexivity].
      destruct (len match history r with Some h => h | None => [] end >? 0);
        reflexivity.
    + rewrite (initializeChat_fresh request p st session Hcreate Hstatus).
      reflexivity.
  - rewrite (initializeChat_failed request p st e Hcreate). reflexivity.
Qed.

(** ** Sending, continued *)

(** X7.  Every send that goes through, answered or failed, issues one
    remote call, which carries the session id of the panel, the input as
    typed and the props; it ends with the input field cleared and the
    sending flag down, and leaves the session id as it was, whatever
    session id the response names.  A failed send does not put the typed
    text back. *)
Theorem X7_send_round_trip_frame (request : Request) (p : Props)
  (st : PanelState) :
  ChatPanel.sendGuard st = false ->
  let after := store_after (ChatPanel.handleSendMessage request p) st in
  remote_calls (trace_of (ChatPanel.handleSendMessage request p) st)
  = [Http (PostChatMessages
             {| sm_session_id := sessionId st;
                sm_message := inputMessage st;
                sm_note_content := noteContent p;
                sm_provider_id := providerId p;
                sm_model_name := modelName p;
                sm_task_id := Some (taskId p) |})] /\
  outcome_of (ChatPanel.handleSendMessage request p) st = Resolved tt /\
  inputMessage after = "" /\
  isLoading after = false /\
  sessionId after = sessionId st /\
  isInitializing after = isInitializing st.
Proof.
  intros Hguard after. subst after. unfold trace_of, outcome_of, store_after.
  rewrite handleSendMessage_run by assumption.
  destruct (post_chat_messages request (ChatPanel.sendRequest p st));
    repeat split.
Qed.

(** A question lost to a backend that is down. *)
Lemma X7_send_round_trip_frame_sample :
  inputMessage
    (store_after (ChatPanel.handleSendMessage Sample.flaky Sample.props)
       (Sample.ready [Sample.W] "What is X?")) = "" /\
  isLoading
    (store_after (ChatPanel.handleSendMessage Sample.flaky Sample.props)
       (Sample.ready [Sample.W] "What is X?")) = false.
Proof.
  destruct (X7_send_round_trip_frame Sample.flaky Sample.props
              (Sample.ready [Sample.W] "What is X?") eq_refl)
    as (_ & _ & Hinput & Hflag & _).
  split; assumption.
Defined.

(** X8.  Bootstrap and first send compose: when [createSession] answers
    with a session that is not "existing" and has a session id, and the
    user types an input that is not blank, a submit sends it under that
    session id, and an answered send leaves the welcome entry, the
    question and the answer, in this order. *)
Theorem X8_first_exchange (request : Request) (p : Props)
  (session : ChatSession) (input : string) (reply : SendMessageResponse) :
  post_chat_sessions request (createSessionRequest p) = Resolved session ->
  status session <> "existing" ->
  session_id session <> "" ->
  blank input = false ->
  let typed :=
    setInputMessage input
      (store_after (ChatPanel.initializeChat request p) mounted) in
  post_chat_messages request (ChatPanel.sendRequest p typed) = Resolved reply ->
  sm_session_id (ChatPanel.sendRequest p typed) = session_id session /\
  messages (store_after (ChatPanel.handleSendMessage request p) typed)
  = [message assistant (welcome_message session);
     message user input;
     message assistant (response reply)].
Proof.
  intros Hcreate Hstatus Hsid Hinput typed Hreply.
  apply String.eqb_neq in Hstatus.
  assert (Hboot : store_after (ChatPanel.initializeChat request p) mounted
                  = {| sessionId := session_id session;
                       messages := welcome session;
                       inputMessage := "";
                       isLoading := false;
                       isInitializing := false |}).
  { unfold store_after.
    now rewrite (initializeChat_fresh request p mounted session Hcreate Hstatus). }
  assert (Hguard : ChatPanel.sendGuard typed = false).
  { rewrite sendGuard_blank. subst typed. rewrite Hboot. simpl.
    rewrite Hinput. apply falsy_false_iff in Hsid. now rewrite Hsid. }
  split.
  - subst typed. rewrite Hboot. reflexivity.
  - unfold store_after at 1.
    rewrite handleSendMessage_run, Hreply by assumption.
    subst typed. rewrite Hboot. reflexivity.
Qed.

(** The two scenarios of the specification, one after the other. *)
Lemma X8_first_exchange_sample :
  messages
    (store_after
       (ChatPanel.handleSendMessage (Sample.online "new" None "X is...")
          Sample.props)
       (setInputMessage "What is X?"
          (store_after
             (ChatPanel.initializeChat (Sample.online "new" None "X is...")
                Sample.props) mounted)))
  = [message assistant "Hi"; message user "What is X?";
     message assistant "X is..."].
Proof.
  apply (X8_first_exchange (Sample.online "new" None "X is...") Sample.props
           (Sample.session "new") "What is X?"
           {| response := "X is..."; resp_session_id := "s1" |});
    try reflexivity; discriminate.
Defined.

(** ** Message deletion, continued *)

(** X9.  A deletion at a position [index] > 0 that holds an entry removes
    two entries when that entry is a user turn with an entry after it,
    whatever the role of that next entry, and one entry otherwise.  All
    other entries stay, in order: those before [index] keep their
    position, the first one in particular, and those after the removed
    ones move down by the number removed. *)
Theorem X9_deletion_keeps_the_rest (st : PanelState) (index : Z)
  (m : ChatMessage) :
  0 < index ->
  at_index (messages st) index = Some m ->
  let l := messages st in
  let removed :=
    if Role_eqb (role m) user && (index + 1 <? len l) then 2 else 1 in
  let after := messages (store_after (ChatPanel.handleDeleteMessage index) st) in
  len after = len l - removed /\
  (forall i, 0 <= i < index -> at_index after i = at_index l i) /\
  (forall i, index <= i -> at_index after i = at_index l (i + removed)).
Proof.
  intros Hpos Hm l removed after.
  pose proof (at_index_Some_range _ _ _ Hm) as Hrange. fold l in Hrange.
  assert (Hafter : after
                   = firstn (Z.to_nat index) l
                     ++ skipn (Z.to_nat (index + removed)) l).
  { subst after. unfold store_after.
    rewrite (handleDeleteMessage_entry st index m) by (lia || assumption).
    simpl. fold l. rewrite splice_in_range
      by (assumption || destruct (Role_eqb (role m) user); lia).
    do 2 f_equal. subst removed.
    destruct (Role_eqb (role m) user); simpl;
      [destruct (Z.ltb_spec (index + 1) (len l))|]; lia. }
  assert (Hremoved : 1 <= removed <= len l - index).
  { subst removed.
    destruct (Role_eqb (role m) user); simpl;
      [destruct (Z.ltb_spec (index + 1) (len l))|]; lia. }
  assert (Hfirst : length (firstn (Z.to_nat index) l) = Z.to_nat index).
  { rewrite length_firstn. unfold len in Hrange. lia. }
  rewrite Hafter. split; [|split].
  - unfold len in *. rewrite length_app, Hfirst, length_skipn. lia.
  - intros i Hi. unfold at_index.
    destruct (Z.ltb_spec i 0) as [Hneg|_]; [lia|].
    rewrite nth_error_app1 by lia. rewrite nth_error_firstn.
    destruct (Nat.ltb_spec (Z.to_nat i) (Z.to_nat index)); [reflexivity|lia].
  - intros i Hi. unfold at_index.
    destruct (Z.ltb_spec i 0) as [Hneg|_]; [lia|].
    destruct (Z.ltb_spec (i + removed) 0) as [Hneg|_]; [lia|].
    rewrite nth_error_app2 by lia. rewrite Hfirst, nth_error_skipn.
    f_equal. lia.
Qed.

(** Two user turns in a row: the second goes with the first. *)
Lemma X9_deletion_keeps_the_rest_sample :
  len
    (messages
       (store_after (ChatPanel.handleDeleteMessage 1)
          (Sample.ready [Sample.W; Sample.U1; Sample.U2; Sample.A2] "")))
  = 2 /\
  at_index
    (messages
       (store_after (ChatPanel.handleDeleteMessage 1)
          (Sample.ready [Sample.W; Sample.U1; Sample.U2; Sample.A2] ""))) 1
  = Some Sample.A2.
Proof.
  destruct (X9_deletion_keeps_the_rest
              (Sample.ready [Sample.W; Sample.U1; Sample.U2; Sample.A2] "")
              1 Sample.U1 eq_refl eq_refl) as (Hlen & _ & Hafter).
  split; [exact Hlen|]. rewrite (Hafter 1); [reflexivity|lia].
Defined.

Lemma handleDeleteMessage_frame st index :
  let after := store_after (ChatPanel.handleDeleteMessage index) st in
  sessionId after = sessionId st /\
  inputMessage after = inputMessage st /\
  isInitializing after = isInitializing st.
Proof.
  unfold store_after, ChatPanel.handleDeleteMessage, bind, update.
  destruct (index =? 0); [repeat split|].
  destruct (at_index (messages st) index) as [m|]; [|repeat split].
  simpl. destruct (Role_eqb (role m) user); repeat split.
Qed.

(** X10.  Deletion is local: for every index it issues no remote call and
    leaves the session id, the input field and both flags as they are.
    For a negative index it throws, as it does past the end of the list,
    and the message list stays as it was. *)
Theorem X10_deletion_is_local (st : PanelState) (index : Z) :
  let after := store_after (ChatPanel.handleDeleteMessage index) st in
  remote_calls (trace_of (ChatPanel.handleDeleteMessage index) st) = [] /\
  sessionId after = sessionId st /\
  inputMessage after = inputMessage st /\
  isLoading after = isLoading st /\
  isInitializing after = isInitializing st /\
  (index < 0 ->
   ChatPanel.handleDeleteMessage index st =
   (Rejected (TypeError "Cannot read properties of undefined (reading 'role')"),
    st, [])).
Proof.
  intros after. subst after.
  destruct (handleDeleteMessage_frame st index) as (Hsid & Hin & Hinit).
  split; [|repeat split; try assumption].
  - unfold trace_of, ChatPanel.handleDeleteMessage, bind, update.
    destruct (index =? 0); [reflexivity|].
    destruct (at_index (messages st) index) as [m|]; [|reflexivity].
    simpl. destruct (Role_eqb (role m) user); reflexivity.
  - apply handleDeleteMessage_keeps_flag.
  - intros Hneg. apply handleDeleteMessage_undefined; [lia|].
    now apply at_index_negative.
Qed.

(** Index -1 on a list of three. *)
Lemma X10_deletion_is_local_sample :
  ChatPanel.handleDeleteMessage (-1)
    (Sample.ready [Sample.W; Sample.U1; Sample.A1] "")
  = (Rejected (TypeError "Cannot read properties of undefined (reading 'role')"),
     Sample.ready [Sample.W; Sample.U1; Sample.A1] "", []).
Proof.
  destruct (X10_deletion_is_local
              (Sample.ready [Sample.W; Sample.U1; Sample.A1] "") (-1))
    as (_ & _ & _ & _ & _ & Hneg).
  apply Hneg. lia.
Defined.

(** ** The panel as a transition system, continued *)

Section MachineFrame.
Import Machine.
Variable request : Request.
Variable p : Props.
Implicit Types (st : PanelState) (panel : Panel).

Lemma submit_frame panel :
  sessionId (view (submit p panel)) = sessionId (view panel) /\
  isInitializing (view (submit p panel)) = isInitializing (view panel) /\
  forall data,
    In data (inflight (submit p panel)) ->
    In data (inflight panel) \/ data = ChatPanel.sendRequest p (view panel).
Proof.
  unfold submit. destruct (ChatPanel.sendGuard (view panel)).
  - repeat split. intros data H. now left.
  - simpl. repeat split. intros data H.
    apply in_app_or in H as [H|[H|[]]]; [now left|now right].
Qed.

Lemma step_frame panel ev panel' :
  step p panel ev = Some panel' ->
  sessionId (view panel') = sessionId (view panel) /\
  isInitializing (view panel') = isInitializing (view panel) /\
  forall data,
    In data (inflight panel') ->
    In data (inflight panel) \/ data = ChatPanel.sendRequest p (view panel).
Proof.
  intros Hstep. destruct ev as [value| |e|index|o]; simpl in Hstep.
  - destruct (isLoading (view panel)); [discriminate|].
    injection Hstep as <-. simpl. repeat split. intros data H. now left.
  - injection Hstep as <-. apply submit_frame.
  - destruct (isLoading (view panel)); [discriminate|].
    destruct (String.eqb (key e) "Enter" && negb (shiftKey e));
      injection Hstep as <-; [apply submit_frame|].
    repeat split. intros data H. now left.
  - destruct (existsb (Z.eqb index) (ChatPanel.deleteButtons (view panel)));
      [|discriminate].
    injection Hstep as <-. simpl.
    destruct (handleDeleteMessage_frame (view panel) index) as (Hs & _ & Hi).
    repeat split; try assumption. intros data H. now left.
  - destruct (inflight panel) as [|first rest]; [discriminate|].
    injection Hstep as <-. simpl.
    split; [destruct o; reflexivity|]. split; [destruct o; reflexivity|].
    intros data H. left. now right.
Qed.

End MachineFrame.

(** X11.  In every state the panel can reach after its bootstrap, the
    initializing flag is down and the session id is the one the bootstrap
    left: no user action and no answer to a send changes it, and every
    pending send request carries it. *)
Theorem X11_session_id_is_fixed (request : Request) (p : Props)
  (panel : Machine.Panel) :
  Machine.reachable request p panel ->
  isInitializing (Machine.view panel) = false /\
  sessionId (Machine.view panel)
  = sessionId (Machine.view (Machine.booted request p)) /\
  forall data,
    In data (Machine.inflight panel) ->
    sm_session_id data = sessionId (Machine.view (Machine.booted request p)).
Proof.
  induction 1 as [|panel ev panel' _ IH Hstep].
  - split; [|split; [reflexivity|intros data []]].
    apply (initializeChat_completes request p mounted).
  - destruct IH as (Hinit & Hsid & Hpending).
    destruct (step_frame p panel ev panel' Hstep) as (Hs & Hi & Hin).
    split; [congruence|]. split; [congruence|].
    intros data H. apply Hin in H as [H| ->]; [now apply Hpending|].
    simpl. exact Hsid.
Qed.

(** A question sent and answered with another session id in the response. *)
Lemma X11_session_id_is_fixed_sample :
  match
    Machine.run Sample.props
      (Machine.booted (Sample.online "new" None "a1") Sample.props)
      [Machine.Change "q1"; Machine.Submit;
       Machine.Settle
         (Resolved {| response := "a1"; resp_session_id := "s2" |})]
  with
  | Some panel => sessionId (Machine.view panel) = "s1"
  | None => False
  end.
Proof.
  destruct (Machine.run Sample.props
              (Machine.booted (Sample.online "new" None "a1") Sample.props)
              [Machine.Change "q1"; Machine.Submit;
               Machine.Settle
                 (Resolved {| response := "a1"; resp_session_id := "s2" |})])
    as [panel|] eqn:Hrun; [|discriminate Hrun].
  destruct (X11_session_id_is_fixed (Sample.online "new" None "a1")
              Sample.props panel) as (_ & Hsid & _).
  - exact (run_reachable _ _ _ _ _ (Machine.reach_booted _ _) Hrun).
  - exact Hsid.
Defined.

(** X12.  A failed bootstrap is a dead end: in every state the panel can
    reach after it, the message list is empty, no session id is set and no
    send is pending, whatever the user types, submits or clicks. *)
Theorem X12_failed_bootstrap_is_a_dead_end (request : Request) (p : Props)
  (e : Error) (panel : Machine.Panel) :
  post_chat_sessions request (createSessionRequest p) = Rejected e ->
  Machine.reachable request p panel ->
  messages (Machine.view panel) = [] /\
  sessionId (Machine.view panel) = "" /\
  isLoading (Machine.view panel) = false /\
  Machine.inflight panel = [].
Proof.
  intros Hfail. induction 1 as [|panel ev panel' _ IH Hstep].
  - unfold Machine.booted, store_after. simpl.
    rewrite (initializeChat_failed request p mounted e Hfail). repeat split.
  - destruct IH as (Hmsg & Hsid & Hflag & Hnone).
    assert (Hsubmit : Machine.submit p panel = panel).
    { unfold Machine.submit. rewrite sendGuard_blank, Hsid. simpl.
      now rewrite orb_true_r. }
    destruct ev as [value| |k|index|o]; simpl in Hstep.
    + rewrite Hflag in Hstep. injection Hstep as <-. simpl. now repeat split.
    + rewrite Hsubmit in Hstep. injection Hstep as <-. now repeat split.
    + rewrite Hflag, Hsubmit in Hstep.
      destruct (String.eqb (key k) "Enter" && negb (shiftKey k));
        injection Hstep as <-; now repeat split.
    + unfold ChatPanel.deleteButtons in Hstep. rewrite Hmsg in Hstep.
      discriminate Hstep.
    + rewrite Hnone in Hstep. discriminate Hstep.
Qed.

(** Typing and submitting twice against a backend that is down. *)
Lemma X12_failed_bootstrap_is_a_dead_end_sample :
  match
    Machine.run Sample.props (Machine.booted Sample.offline Sample.props)
      [Machine.Change "q1"; Machine.Submit; Machine.KeyPress Fixture.enter]
  with
  | Some panel =>
      messages (Machine.view panel) = [] /\ Machine.inflight panel = []
  | None => False
  end.
Proof.
  destruct (Machine.run Sample.props
              (Machine.booted Sample.offline Sample.props)
              [Machine.Change "q1"; Machine.Submit;
               Machine.KeyPress Fixture.enter])
    as [panel|] eqn:Hrun; [|discriminate Hrun].
  destruct (X12_failed_bootstrap_is_a_dead_end Sample.offline Sample.props
              Sample.down panel eq_refl) as (Hmsg & _ & _ & Hnone).
  - exact (run_reachable _ _ _ _ _ (Machine.reach_booted _ _) Hrun).
  - split; assumption.
Defined.

(** ** The panel without history *)

(** X13.  The bootstrap of the older panel, which runs again when a prop
    changes, makes one remote call and ends with the initializing flag
    down.  When [createSession] succeeds the conversation shown before is
    replaced by the welcome entry of the new session, whatever its status.
    When it fails the failure is notified and the previous session id and
    conversation stay in place. *)
Theorem X13_older_panel_bootstrap (request : Request) (p : Props)
  (st : PanelState) :
  let after := store_after (ChatContainer.initializeChat request p) st in
  remote_calls (trace_of (ChatContainer.initializeChat request p) st)
  = [Http (PostChatSessions (createSessionRequest p))] /\
  isInitializing after = false /\
  (forall session,
     post_chat_sessions request (createSessionRequest p) = Resolved session ->
     sessionId after = session_id session /\
     messages after = [message assistant (welcome_message session)]) /\
  (forall e,
     post_chat_sessions request (createSessionRequest p) = Rejected e ->
     sessionId after = sessionId st /\
     messages after = messages st /\
     failure_notices (trace_of (ChatContainer.initializeChat request p) st)
     = [ToastError "聊天会话创建失败"]).
Proof.
  intros after. subst after. unfold store_after, trace_of.
  unfold ChatContainer.initializeChat, try_finally, try_catch, bind, update.
  rewrite createSession_run.
  destruct (post_chat_sessions request (createSessionRequest p))
    as [session|e]; simpl.
  - split; [reflexivity|]. split; [reflexivity|]. split.
    + intros s Hs. injection Hs as <-. split; reflexivity.
    + intros e He. discriminate He.
  - split; [reflexivity|]. split; [reflexivity|]. split.
    + intros s Hs. discriminate Hs.
    + intros e' _. repeat split.
Qed.

(** A prop changes in the middle of a conversation, with the backend down
    and with the backend up. *)
Lemma X13_older_panel_bootstrap_sample :
  messages
    (store_after (ChatContainer.initializeChat Sample.offline Sample.props)
       (Sample.ready [Sample.W; Sample.U1; Sample.A1] ""))
  = [Sample.W; Sample.U1; Sample.A1] /\
  messages
    (store_after
       (ChatContainer.initializeChat
          (Sample.online "existing" (Some [Sample.U2; Sample.A2]) "")
          Sample.props)
       (Sample.ready [Sample.W; Sample.U1; Sample.A1] ""))
  = [message assistant "Hi"].
Proof.
  destruct (X13_older_panel_bootstrap Sample.offline Sample.props
              (Sample.ready [Sample.W; Sample.U1; Sample.A1] ""))
    as (_ & _ & _ & Hfail).
  destruct (X13_older_panel_bootstrap
              (Sample.online "existing" (Some [Sample.U2; Sample.A2]) "")
              Sample.props
              (Sample.ready [Sample.W; Sample.U1; Sample.A1] ""))
    as (_ & _ & Hok & _).
  split.
  - apply (Hfail Sample.down eq_refl).
  - apply (Hok (Sample.session "existing") eq_refl).
Defined.

(** X14.  The two versions of the panel agree wherever the history plays
    no part: their bootstraps leave the same state when [createSession]
    fails and when it answers with a session that is not "existing", and
    their send handlers leave the same state whenever the backend settles
    the request with [task_id] as it settles the one without. *)
Theorem X14_versions_agree (request : Request) (p : Props) (st : PanelState) :
  (forall e,
     post_chat_sessions request (createSessionRequest p) = Rejected e ->
     store_after (ChatPanel.initializeChat request p) st
     = store_after (ChatContainer.initializeChat request p) st) /\
  (forall session,
     post_chat_sessions request (createSessionRequest p) = Resolved session ->
     status session <> "existing" ->
     store_after (ChatPanel.initializeChat request p) st
     = store_after (ChatContainer.initializeChat request p) st) /\
  (post_chat_messages request (ChatPanel.sendRequest p st)
   = post_chat_messages request (ChatContainer.sendRequest p st) ->
   store_after (ChatPanel.handleSendMessage request p) st
   = store_after (ChatContainer.handleSendMessage request p) st).
Proof.
  unfold store_after. split; [|split].
  - intros e Hfail. rewrite (initializeChat_failed request p st e Hfail).
    unfold ChatContainer.initializeChat, try_finally, try_catch, bind, update.
    rewrite createSession_run, Hfail. reflexivity.
  - intros session Hok Hstatus. apply String.eqb_neq in Hstatus.
    rewrite (initializeChat_fresh request p st session Hok Hstatus).
    unfold ChatContainer.initializeChat, try_finally, try_catch, bind, update.
    rewrite createSession_run, Hok. reflexivity.
  - intros Hsame.
    destruct (ChatPanel.sendGuard st) eqn:Hguard.
    + rewrite handleSendMessage_guarded by assumption.
      unfold ChatContainer.handleSendMessage.
      change (ChatContainer.sendGuard st) with (ChatPanel.sendGuard st).
      now rewrite Hguard.
    + rewrite handleSendMessage_run by assumption.
      rewrite ChatContainer_handleSendMessage_run by exact Hguard.
      rewrite Hsame.
      destruct (post_chat_messages request (ChatContainer.sendRequest p st));
        reflexivity.
Qed.

(** A first question under both versions. *)
Lemma X14_versions_agree_sample :
  store_after
    (ChatPanel.handleSendMessage (Sample.online "new" None "X is...")
       Sample.props) (Sample.ready [Sample.W] "What is X?")
  = store_after
      (ChatContainer.handleSendMessage (Sample.online "new" None "X is...")
         Sample.props) (Sample.ready [Sample.W] "What is X?").
Proof.
  destruct (X14_versions_agree (Sample.online "new" None "X is...")
              Sample.props (Sample.ready [Sample.W] "What is X?"))
    as (_ & _ & Hsend).
  apply Hsend. reflexivity.
Defined.

(** ** Dates *)

Lemma replaceSlashes_length s :
  String.length (utils.replaceSlashes s) = String.length s.
Proof. induction s as [|c s IH]; simpl; congruence. Qed.

Lemma replaceSlashes_no_slash s c :
  In c (list_ascii_of_string (utils.replaceSlashes s)) -> c <> "/"%char.
Proof.
  induction s as [|a s IH]; simpl; [intros []|].
  intros [<-|H]; [|now apply IH].
  destruct (Ascii.eqb_spec a "/"%char) as [->|Hne]; [discriminate|exact Hne].
Qed.

Lemma replaceSlashes_fixed s :
  (forall c, In c (list_ascii_of_string s) -> c <> "/"%char) ->
  utils.replaceSlashes s = s.
Proof.
  induction s as [|a s IH]; simpl; [reflexivity|].
  intros H. rewrite IH by (intros c Hc; apply H; now right).
  destruct (Ascii.eqb_spec a "/"%char) as [->|_]; [|reflexivity].
  exfalso. apply (H "/"%char); [now left|reflexivity].
Qed.

Lemma replaceSlashes_get s :
  forall i,
    String.get i (utils.replaceSlashes s)
    = option_map (fun c => if Ascii.eqb c "/"%char then "-"%char else c)
        (String.get i s).
Proof.
  induction s as [|a s IH]; intros i; simpl; [reflexivity|].
  destruct i as [|i]; [reflexivity|apply IH].
Qed.

Section DateFacts.
Variable Date : Type.
Variable newDate : string -> Date.
Variable getTime : Date -> option Z.
Variable toLocaleString : Date -> string.

Let formatDate := utils.formatDate Date newDate getTime toLocaleString.

(** X15.  [formatDate] answers the empty string to a missing date, to the
    empty string, to a text that does not parse to a valid date and to an
    invalid date object. *)
Theorem X15_formatDate_of_no_date :
  formatDate utils.Undefined = "" /\
  formatDate (utils.Text "") = "" /\
  (forall s, getTime (newDate s) = None -> formatDate (utils.Text s) = "") /\
  (forall d, getTime d = None -> formatDate (utils.Object d) = "").
Proof.
  subst formatDate. unfold utils.formatDate, utils.render.
  repeat split.
  - intros s H. rewrite H. destruct (falsy s); reflexivity.
  - intros d H. now rewrite H.
Qed.

(** X16.  The text [formatDate] returns never holds a slash.  For a valid
    date, given as a date object or as a text that is not empty and parses
    to it, the result is the locale text of that date with every slash
    turned into a dash: it has the length of the locale text, at every
    position it holds the character of the locale text, a dash standing for
    a slash, and it is the locale text itself when the locale writes the
    date without slashes. *)
Theorem X16_formatDate_has_no_slash :
  (forall date c,
     In c (list_ascii_of_string (formatDate date)) -> c <> "/"%char) /\
  (forall date d t,
     date = utils.Object d \/
     (exists s, s <> "" /\ date = utils.Text s /\ d = newDate s) ->
     getTime d = Some t ->
     String.length (formatDate date) = String.length (toLocaleString d) /\
     (forall i,
        String.get i (formatDate date)
        = option_map (fun c => if Ascii.eqb c "/"%char then "-"%char else c)
            (String.get i (toLocaleString d))) /\
     ((forall c, In c (list_ascii_of_string (toLocaleString d)) ->
                 c <> "/"%char) ->
      formatDate date = toLocaleString d)).
Proof.
  subst formatDate. split.
  - intros date c. unfold utils.formatDate, utils.render.
    destruct date as [|s|d]; simpl; [intros []| |].
    + destruct (falsy s); [intros []|].
      destruct (getTime (newDate s)); [apply replaceSlashes_no_slash|intros []].
    + destruct (getTime d); [apply replaceSlashes_no_slash|intros []].
  - intros date d t Hdate Hvalid.
    assert (Hrun : utils.formatDate Date newDate getTime toLocaleString date
                   = utils.replaceSlashes (toLocaleString d)).
    { destruct Hdate as [->|(s & Hs & -> & ->)];
        unfold utils.formatDate, utils.render.
      - now rewrite Hvalid.
      - apply falsy_false_iff in Hs. now rewrite Hs, Hvalid. }
    rewrite Hrun. split; [|split].
    + apply replaceSlashes_length.
    + apply replaceSlashes_get.
    + apply replaceSlashes_fixed.
Qed.
End DateFacts.

(** A text that does not parse. *)
Lemma X15_formatDate_of_no_date_sample :
  utils.formatDate (option Z) Fixture.newDate Fixture.getTime
    Fixture.toLocaleString (utils.Text "tomorrow") = "".
Proof.
  destruct (X15_formatDate_of_no_date (option Z) Fixture.newDate
              Fixture.getTime Fixture.toLocaleString) as (_ & _ & Htext & _).
  apply Htext. reflexivity.
Defined.

(** A text that parses, under a locale that writes slashes. *)
Lemma X16_formatDate_has_no_slash_sample :
  String.length
    (utils.formatDate (option Z) Fixture.newDate Fixture.getTime
       Fixture.toLocaleString (utils.Text "ok"))
  = 16%nat /\
  String.get 4
    (utils.formatDate (option Z) Fixture.newDate Fixture.getTime
       Fixture.toLocaleString (utils.Text "ok"))
  = Some "-"%char.
Proof.
  destruct (X16_formatDate_has_no_slash (option Z) Fixture.newDate
              Fixture.getTime Fixture.toLocaleString) as (_ & Hvalid).
  destruct (Hvalid (utils.Text "ok") (Fixture.newDate "ok") 0) as (Hlen & Hget & _).
  - right. exists "ok". repeat split. discriminate.
  - reflexivity.
  - split; [exact Hlen|]. rewrite Hget. reflexivity.
Defined.

(** ** The note header *)

Section HeaderFacts.
Import MarkdownHeader.

Lemma find_first {A} (test : A -> bool) (front : list A) (a : A)
  (back : list A) :
  (forall x, In x front -> test x = false) -> test a = true ->
  find test (front ++ a :: back) = Some a.
Proof.
  intros Hfront Ha. induction front as [|x front IH]; simpl.
  - now rewrite Ha.
  - rewrite (Hfront x) by now left.
    apply IH. intros y Hy. apply Hfront. now right.
Qed.

Lemma findIndexFrom_spec {A} (test : A -> bool) (l : list A) :
  forall from, 0 <= from ->
  (findIndexFrom test l from = -1 <-> forall a, In a l -> test a = false).
Proof.
  induction l as [|x l IH]; intros from Hfrom; simpl.
  - split; [intros _ a []|reflexivity].
  - destruct (test x) eqn:Hx.
    + split; [lia|]. intros H. rewrite (H x) in Hx by now left.
      discriminate Hx.
    + rewrite IH by lia. split.
      * intros H a [<-|Ha]; [exact Hx|now apply H].
      * intros H a Ha. apply H. now right.
Qed.

Lemma versionText_not_empty short : versionText short <> "".
Proof. unfold versionText. simpl. discriminate. Qed.

Lemma slice_tail {A} (l : list A) (n : Z) :
  n < 0 -> slice l n (len l) = skipn (length l - Z.to_nat (- n)) l.
Proof.
  intros Hn. unfold slice, clamp. pose proof (len_nonneg l) as Hl.
  destruct (Z.ltb_spec n 0) as [_|Hge]; [|lia].
  destruct (Z.ltb_spec (len l) 0) as [Hneg|_]; [lia|].
  rewrite Z.min_id.
  replace (Z.to_nat (Z.max (len l + n) 0))
    with (length l - Z.to_nat (- n))%nat by (unfold len; lia).
  apply firstn_all2. rewrite length_skipn. unfold len. lia.
Qed.

Lemma string_of_list_ascii_app l1 l2 :
  string_of_list_ascii (l1 ++ l2)
  = (string_of_list_ascii l1 ++ string_of_list_ascii l2)%string.
Proof. induction l1 as [|c l1 IH]; simpl; congruence. Qed.

Lemma length_string_of_list_ascii l :
  String.length (string_of_list_ascii l) = length l.
Proof. induction l as [|c l IH]; simpl; congruence. Qed.

Lemma length_list_ascii_of_string s :
  length (list_ascii_of_string s) = String.length s.
Proof. induction s as [|c s IH]; simpl; congruence. Qed.

(** X17.  The style shown is decided by the first entry of [noteStyles]
    whose value is the style of the note: its label, unless that label is
    empty, in which case, as when no entry has that value, the raw style
    is shown.  So a style that is not empty is never shown as an empty
    text. *)
Theorem X17_style_name (noteStyles : list NoteStyle) (style : string) :
  (forall front s back,
     noteStyles = front ++ s :: back ->
     (forall x, In x front -> value x <> style) ->
     value s = style ->
     styleName noteStyles style = if falsy (label s) then style else label s) /\
  ((forall s, In s noteStyles -> value s <> style) ->
   styleName noteStyles style = style) /\
  (style <> "" -> styleName noteStyles style <> "").
Proof.
  unfold styleName. split; [|split].
  - intros front s back -> Hfront Hs.
    rewrite (find_first _ front s back); [reflexivity| |].
    + intros x Hx. apply String.eqb_neq. now apply Hfront.
    + now apply String.eqb_eq.
  - intros Hnone.
    destruct (find (fun s => String.eqb (value s) style) noteStyles)
      as [s|] eqn:Hfind; [|reflexivity].
    apply find_some in Hfind as [Hin Hs]. apply String.eqb_eq in Hs.
    now apply Hnone in Hin.
  - intros Hstyle.
    destruct (find (fun s => String.eqb (value s) style) noteStyles)
      as [s|]; [|exact Hstyle].
    destruct (falsy (label s)) eqn:Hlabel; [exact Hstyle|].
    now apply falsy_false_iff.
Qed.

(** A style with a label, and one whose label is empty. *)
Lemma X17_style_name_sample :
  styleName Fixture.styles "minimal" = "Minimal" /\
  styleName Fixture.styles "raw" = "raw".
Proof.
  destruct (X17_style_name Fixture.styles "minimal") as (Hfirst & _ & _).
  destruct (X17_style_name Fixture.styles "raw") as (Hsecond & _ & _).
  split.
  - apply (Hfirst [] {| value := "minimal"; label := "Minimal" |}
             [{| value := "raw"; label := "" |}]);
      [reflexivity|intros x []|reflexivity].
  - apply (Hsecond [{| value := "minimal"; label := "Minimal" |}]
             {| value := "raw"; label := "" |} []);
      [reflexivity| |reflexivity].
    intros x [<-|[]]. discriminate.
Defined.

(** X18.  With a task, the version select has one item for each version of
    the task, in order, and its trigger is blank exactly when the current
    version id is none of theirs; when it is one of theirs, the trigger
    shows the text of the item with that value.  Without a task there is
    no item, yet the trigger shows a version text. *)
Theorem X18_version_select (task : Task) (currentVerId : string) :
  List.map fst (selectItems (Some task)) = List.map ver_id (markdown task) /\
  (triggerText (Some task) currentVerId = "" <->
   ~ In currentVerId (List.map ver_id (markdown task))) /\
  (In currentVerId (List.map ver_id (markdown task)) ->
   In (currentVerId, triggerText (Some task) currentVerId)
     (selectItems (Some task))) /\
  selectItems None = [] /\
  triggerText None currentVerId <> "".
Proof.
  assert (Hfound :
    findIndex (fun v => String.eqb (ver_id v) currentVerId) (markdown task)
    = -1 <-> ~ In currentVerId (List.map ver_id (markdown task))).
  { unfold findIndex. rewrite findIndexFrom_spec by lia. split.
    - intros H Hin. apply in_map_iff in Hin as (v & Hv & Hin).
      apply H in Hin. apply String.eqb_neq in Hin. contradiction.
    - intros H v Hv. apply String.eqb_neq. intros Heq. apply H.
      apply in_map_iff. now exists v. }
  split; [|split; [|split; [|split]]].
  - unfold selectItems. rewrite map_map. reflexivity.
  - rewrite <- Hfound. unfold triggerText.
    destruct (Z.eqb_spec
                (findIndex (fun v => String.eqb (ver_id v) currentVerId)
                   (markdown task)) (-1)) as [->|Hne]; simpl.
    + split; reflexivity.
    + split; [intros H; now apply versionText_not_empty in H|contradiction].
  - intros Hin. unfold triggerText.
    destruct (Z.eqb_spec
                (findIndex (fun v => String.eqb (ver_id v) currentVerId)
                   (markdown task)) (-1)) as [Heq|_]; simpl.
    + apply Hfound in Heq. contradiction.
    + unfold selectItems. apply in_map_iff in Hin as (v & <- & Hv).
      apply in_map_iff. now exists v.
  - reflexivity.
  - apply versionText_not_empty.
Qed.

(** The second version of a task, and a version id the task does not have. *)
Lemma X18_version_select_sample :
  In ("v2", triggerText (Some Fixture.task) "v2")
    (selectItems (Some Fixture.task)) /\
  triggerText (Some Fixture.task) "v3" = "".
Proof.
  destruct (X18_version_select Fixture.task "v2") as (_ & _ & Hshown & _).
  destruct (X18_version_select Fixture.task "v3") as (_ & Hblank & _).
  split.
  - apply Hshown. simpl. right. left. reflexivity.
  - apply Hblank. simpl. intros [H|[H|[]]]; discriminate H.
Defined.

(** X19.  The short id of a version is the end of its id: its last six
    characters, and the whole id when it has six characters or fewer. *)
Theorem X19_short_id (id : string) :
  (exists front, id = (front ++ shortId id)%string) /\
  String.length (shortId id) = Nat.min 6 (String.length id) /\
  ((String.length id <= 6)%nat -> shortId id = id).
Proof.
  unfold shortId. cbv zeta.
  rewrite (slice_tail (list_ascii_of_string id) (-6)) by lia.
  change (Z.to_nat (- -6)) with 6%nat.
  split; [|split].
  - exists (string_of_list_ascii
              (firstn (length (list_ascii_of_string id) - 6)
                 (list_ascii_of_string id))).
    rewrite <- string_of_list_ascii_app, firstn_skipn.
    symmetry. apply string_of_list_ascii_of_string.
  - rewrite length_string_of_list_ascii, length_skipn,
      length_list_ascii_of_string. lia.
  - intros Hshort. rewrite <- length_list_ascii_of_string in Hshort.
    replace (length (list_ascii_of_string id) - 6)%nat with 0%nat by lia.
    simpl. apply string_of_list_ascii_of_string.
Qed.

(** An id of two characters. *)
Lemma X19_short_id_sample : shortId "v2" = "v2".
Proof.
  destruct (X19_short_id "v2") as (_ & _ & Hwhole).
  apply Hwhole. simpl. lia.
Defined.
End HeaderFacts.

(** ** The continuation of a send *)

(** X20.  What [handleSendMessage] does once its call has settled depends
    on the message list of that moment only through its end: an answer is
    appended after whatever the list then holds, and a failure removes the
    entry that is then last, whichever it is, and nothing when the list is
    empty.  Either way the sending flag goes down and the input field and
    the session id stay as they are. *)
Theorem X20_continuation_of_a_send (st : PanelState)
  (o : outcome SendMessageResponse) :
  messages (Machine.settle o st)
  = match o with
    | Resolved reply => messages st ++ [message assistant (response reply)]
    | Rejected _ => removelast (messages st)
    end /\
  isLoading (Machine.settle o st) = false /\
  inputMessage (Machine.settle o st) = inputMessage st /\
  sessionId (Machine.settle o st) = sessionId st.
Proof.
  rewrite settle_run. destruct o as [reply|e]; simpl.
  - repeat split.
  - rewrite slice_removelast. repeat split.
Qed.
